(** * Funnel Report ETL Pipeline: a shallow embedding of report_engine.py

    The funnel table builder ([build_report_table]), the stage aggregation
    ([aggregate_stages]), the percentage helper ([_pct]), the demo data
    ([get_mock_funnel_data]) and the date range resolvers ([_date_range],
    [_month_prefixes]); then, in modules, the properties of the table
    ([Table]), the worksheet layout of run_reports.py's
    [write_funnel_excel] ([Sheet]), its [send_report_mail] ([Mail]), the
    date-range branches of the fetches ([Ranges]) and [load_config],
    [load_recipients] and the loop of [run] ([Pipeline]).

    Modelling conventions.
    - A pandas Series indexed by column name is a [gmap string Z]; indexing
      a missing label raises [KeyError], modelled as [None] of the option
      monad that threads every failing read.
    - The stage DataFrame is a map from column name to the column's cells.
    - Python floats are modelled by their exact rational value ([Q]);
      [int(x)] of a float truncates toward zero ([py_int]); [round(x, 1)]
      rounds half to even on the tenths ([round1]).
    - A table cell is a Python string, int or float ([cell]). *)

From Stdlib Require Import ZArith QArith Qround Lia Lqa Ascii.
From stdpp Require Import base gmap strings list sorting.

Local Open Scope Z_scope.
Local Open Scope string_scope.

(* ------------------------------------------------------------------ *)
(** ** Python numbers and table cells *)

Inductive cell :=
| CStr (s : string)
| CInt (z : Z)
| CFloat (q : Q).

(** [int(x)] for a float [x]: truncation toward zero. *)
Definition py_int (q : Q) : Z := Z.quot (Qnum q) (Zpos (Qden q)).

(** Round half to even to an integer (what [round] does on a tie). *)
Definition round_half_even (y : Q) : Z :=
  let f := Qfloor y in
  let r := (y - inject_Z f)%Q in
  if Qlt_le_dec r (1 # 2) then f
  else if Qlt_le_dec (1 # 2) r then f + 1
  else if Z.even f then f else f + 1.

(** [round(x, 1)]. *)
Definition round1 (x : Q) : Q := Qmake (round_half_even (x * 10)%Q) 10.

(** [_pct(value, total)]:
    [round((value / total) * 100, 1) if total > 0 else 0]. *)
Definition _pct (value total : Z) : cell :=
  if Z.ltb 0 total
  then CFloat (round1 ((inject_Z value / inject_Z total) * 100)%Q)
  else CInt 0.

(* ------------------------------------------------------------------ *)
(** ** Stage aggregation *)

Definition STAGE_COLUMNS : list string :=
  [ "AA_client_Initialization";
    "OTP_Based_Sign_in_Sign_up";
    "View_Consent_Details";
    "Discovery";
    "Linking";
    "Rejected_Consent_Requests";
    "Approved_Consent_Requests";
    "FIP_Rejected_Consent_Artefacts";
    "FIP_Accepted_Consent_Artefacts";
    "Data_Fetch_Success";
    "Data_Fetch_Not_Attempted" ].

(** Sum of a column after [astype(float).astype(int)]. *)
Definition column_total (col : list Q) : Z :=
  fold_right Z.add 0 (map py_int col).

(** [stage_df[STAGE_COLUMNS].astype(float).astype(int).sum()]: selecting a
    column the frame lacks raises [KeyError]. *)
Fixpoint aggregate_columns (stage_df : gmap string (list Q)) (cols : list string)
  : option (gmap string Z) :=
  match cols with
  | [] => Some ∅
  | c :: cs =>
      col ← stage_df !! c;
      rest ← aggregate_columns stage_df cs;
      Some (<[c := column_total col]> rest)
  end.

Definition aggregate_stages (stage_df : gmap string (list Q)) : option (gmap string Z) :=
  aggregate_columns stage_df STAGE_COLUMNS.

(* ------------------------------------------------------------------ *)
(** ** The other row-sets *)

(** One row of the OTP totals frame (SUM of DOUBLE casts). *)
Record otp_row := {
  Total_Correct_OTP_Entered : Q;
  Total_Incorrect_OTP_Entered : Q;
  Total_OTP_Not_Entered : Q }.

(** One row of the discovery totals frame; [None] is a NaN cell. *)
Record disc_row := {
  Account_Discovered : option Q;
  Account_not_Found : option Q;
  FIP_Not_Selected : option Q;
  Failure : option Q;
  NO_STATUS : option Q }.

(** One row of the fetch-status frame: [fetch_status], [Count]. *)
Record fi_row := {
  fetch_status : string;
  Count : Z }.

(** The discovery columns read by the builder, in the code's order. *)
Definition DISC_COLUMNS : list (string * (disc_row -> option Q)) :=
  [ ("Account_Discovered", Account_Discovered);
    ("Account_not_Found", Account_not_Found);
    ("FIP_Not_Selected", FIP_Not_Selected);
    ("Failure", Failure);
    ("NO_STATUS", NO_STATUS) ].

(** [disc[col] = int(float(v)) if pd.notna(v) else 0] for each column. *)
Fixpoint disc_loop (r : disc_row) (cols : list (string * (disc_row -> option Q)))
    (disc : gmap string Z) : gmap string Z :=
  match cols with
  | [] => disc
  | (name, get) :: cs =>
      let v := match get r with Some q => py_int q | None => 0 end in
      disc_loop r cs (<[name := v]> disc)
  end.

(** [sum(disc.values())]. *)
Definition dict_sum (disc : gmap string Z) : Z :=
  map_fold (fun _ v acc => v + acc) 0 disc.

(** [disc.get(col, 0)]. *)
Definition dict_get0 (disc : gmap string Z) (k : string) : Z :=
  match disc !! k with Some v => v | None => 0 end.

(** [fi_status_df.loc[fi_status_df["fetch_status"] == s, "Count"].sum()]. *)
Definition count_status (fi_status_df : list fi_row) (s : string) : Z :=
  fold_right Z.add 0
    (map Count (filter (fun r => fetch_status r = s) fi_status_df)).

(** [int(otp_totals[col].iloc[0]) if not otp_totals.empty else 0]. *)
Definition otp_first (get : otp_row -> Q) (otp_totals : list otp_row) : Z :=
  match otp_totals with
  | [] => 0
  | r :: _ => py_int (get r)
  end.

(* ------------------------------------------------------------------ *)
(** ** The funnel table builder *)

Abbreviation table := (list (list cell)).

(** The cohort size [total_users] of [build_report_table] (lines 239-247). *)
Definition total_users (stage_totals : gmap string Z) : option Z :=
  a ← stage_totals !! "AA_client_Initialization";
  b ← stage_totals !! "OTP_Based_Sign_in_Sign_up";
  c ← stage_totals !! "View_Consent_Details";
  d ← stage_totals !! "Discovery";
  e ← stage_totals !! "Linking";
  f ← stage_totals !! "Rejected_Consent_Requests";
  g ← stage_totals !! "Approved_Consent_Requests";
  Some (a + b + c + d + e + f + g).

(** The sub-dropoff marker of the source. *)
Definition arrow : string := "↳".

Definition blank_row : list cell :=
  [CStr ""; CStr ""; CStr ""; CStr ""; CStr ""; CStr ""; CStr ""].

Definition sub_row (cause : string) (n : Z) (pct : Z -> cell) : list cell :=
  [CStr ""; CStr ""; CStr ""; CStr ""; CStr (arrow ++ cause); CInt n; pct n].

Definition stage_row (stage action : string) (ok : Z) (cause : string) (drop : Z)
    (pct : Z -> cell) : list cell :=
  [CStr stage; CStr action; CInt ok; pct ok; CStr cause; CInt drop; pct drop].

Definition build_report_table (stage_totals : gmap string Z)
    (otp_totals : list otp_row) (discovery_totals : list disc_row)
    (fi_status_df : list fi_row) : option table :=
  total_users ← total_users stage_totals;
  let pct := fun x => _pct x total_users in
  d1 ← stage_totals !! "AA_client_Initialization";
  d2 ← stage_totals !! "OTP_Based_Sign_in_Sign_up";
  view_drop ← stage_totals !! "View_Consent_Details";
  let auth_drop := d2 + view_drop in
  let disc := match discovery_totals with
              | [] => ∅
              | r :: _ => disc_loop r DISC_COLUMNS ∅
              end in
  let d3 := match discovery_totals with
            | [] => 0
            | _ :: _ => dict_sum disc
            end in
  d4 ← stage_totals !! "Linking";
  rej ← stage_totals !! "Rejected_Consent_Requests";
  appr ← stage_totals !! "Approved_Consent_Requests";
  fip_rej ← stage_totals !! "FIP_Rejected_Consent_Artefacts";
  fip_ok ← stage_totals !! "FIP_Accepted_Consent_Artefacts";
  fetch_ok ← stage_totals !! "Data_Fetch_Success";
  not_attempted ← stage_totals !! "Data_Fetch_Not_Attempted";
  let n_consent := total_users in
  let n_after_init := n_consent - d1 in
  let n_after_auth := n_after_init - auth_drop in
  let n_after_disc := n_after_auth - d3 in
  let n_after_link := n_after_disc - d4 in
  let fi_req_ok := match fi_status_df with
                   | [] => 0
                   | _ :: _ => count_status fi_status_df "Success"
                               + count_status fi_status_df "Failed"
                   end in
  let fi_fetch_drop := fi_req_ok - fetch_ok in
  let otp_wrong := otp_first Total_Incorrect_OTP_Entered otp_totals in
  let otp_miss := otp_first Total_OTP_Not_Entered otp_totals in
  let otp_ok_drop := d2 - (otp_wrong + otp_miss) + view_drop in
  let no_rec := dict_get0 disc "Account_not_Found" in
  let fip_fail := dict_get0 disc "NO_STATUS" in
  let some_fail := dict_get0 disc "Failure" in
  let found_not_linked := dict_get0 disc "Account_Discovered"
                          + dict_get0 disc "FIP_Not_Selected" in
  Some
  [ [CStr "Summary"; CStr "% of initial users"; CStr ""; CStr "Note"; CStr ""; CStr ""; CStr ""];
    [CStr "Percentage of initial users who approved the consent"; pct appr; CStr "";
     CStr "Please note that this funnel describes the journey of a user and not a consent request.";
     CStr ""; CStr ""; CStr ""];
    [CStr "Percentage of initial users who shared their data"; pct fetch_ok;
     CStr ""; CStr ""; CStr ""; CStr ""; CStr ""];
    blank_row;
    [CStr ""; CStr ""; CStr "Successful Users"; CStr ""; CStr ""; CStr "Dropped off Users"; CStr ""];
    [CStr "Stage"; CStr "Positive Action"; CStr "Count"; CStr "% of initial users";
     CStr "Dropoff Cause"; CStr "Count"; CStr "% of initial users"];
    stage_row "Consent Initiated" "AA successfully received a consent handle" n_consent
      "AA did not receive a consent handle" 0 pct;
    stage_row "FIU initiated AA Client" "AA client was successfully initiated" n_after_init
      "AA client was not successfully initiated" d1 pct;
    stage_row "Registration/Login" "User was authenticated" n_after_auth
      "User was not authenticated" auth_drop pct;
    sub_row "Incorrect OTP entered" otp_wrong pct;
    sub_row "OTP not received back" otp_miss pct;
    sub_row "Correct OTP entered but user dropped off" otp_ok_drop pct;
    stage_row "Account Discovery" "User was able to find accounts" n_after_disc
      "User was not able to find accounts" d3 pct;
    sub_row "FIP returned 'No Records Found'" no_rec pct;
    sub_row "FIP failed to send records" fip_fail pct;
    sub_row "Some FIP returned 'No Records Found' and some failed to send records" some_fail pct;
    sub_row "FIP returned accounts, but user did not link any accounts" found_not_linked pct;
    stage_row "Account Linking" "User was able to link accounts" n_after_link
      "User was not able to link accounts" d4 pct;
    stage_row "Consent Request Review" "User approved the consent request" appr
      "User did not approve the consent request" rej pct;
    sub_row "User rejected the consent" rej pct;
    [CStr ""; CStr ""; CStr ""; CStr ""; CStr (arrow ++ "User did not take any action"); CStr ""; CStr ""];
    stage_row "Consent Artefact Delivery" "FIP accepted the consent artefact" fip_ok
      "FIP rejected the consent artefact" fip_rej pct;
    stage_row "FI Request" "FIU successfully requested the data" fi_req_ok
      "FIU did not request the data" not_attempted pct;
    stage_row "FI Fetch" "FIU successfully received the data" fetch_ok
      "FIU did not received the data" fi_fetch_drop pct ].

(** [table.iloc[r, c]]. *)
Definition cell_at (t : table) (r c : nat) : option cell :=
  row ← t !! r; row !! c.

(* ------------------------------------------------------------------ *)
(** ** Demo data ([get_mock_funnel_data]) *)

Definition mock_stage_df : gmap string (list Q) :=
  list_to_map
    [ ("AA_client_Initialization", [800%Q]);
      ("OTP_Based_Sign_in_Sign_up", [450%Q]);
      ("View_Consent_Details", [1050%Q]);
      ("Discovery", [600%Q]);
      ("Linking", [1600%Q]);
      ("Rejected_Consent_Requests", [1950%Q]);
      ("Approved_Consent_Requests", [1250%Q]);
      ("FIP_Rejected_Consent_Artefacts", [150%Q]);
      ("FIP_Accepted_Consent_Artefacts", [1100%Q]);
      ("Data_Fetch_Success", [820%Q]);
      ("Data_Fetch_Not_Attempted", [50%Q]) ].

Definition mock_otp_df : list otp_row :=
  [ {| Total_Correct_OTP_Entered := 0; Total_Incorrect_OTP_Entered := 450;
       Total_OTP_Not_Entered := 1200 |} ].

Definition mock_discovery_df : list disc_row :=
  [ {| Account_Discovered := Some 350%Q; Account_not_Found := Some 600%Q;
       FIP_Not_Selected := Some 400%Q; Failure := Some 150%Q; NO_STATUS := Some 200%Q |} ].

Definition mock_fi_status_df : list fi_row :=
  [ {| fetch_status := "Success"; Count := 820 |};
    {| fetch_status := "Failed"; Count := 230 |};
    {| fetch_status := "Not Attempted"; Count := 50 |} ].

(** The demo path of run_reports.py: aggregate, then build. *)
Definition demo_table : option table :=
  totals ← aggregate_stages mock_stage_df;
  build_report_table totals mock_otp_df mock_discovery_df mock_fi_status_df.


(* ------------------------------------------------------------------ *)
(** ** Dates ([datetime] at midnight) and the date range resolvers

    A [datetime] produced by [strptime(s, "%d_%m_%Y")] is a valid calendar
    date of years [1 .. 9999] ([MINYEAR .. MAXYEAR]); the resolvers are
    modelled on the parsed dates, and [strftime] on the dates it formats
    ([(year, month)] for the ["*%m_%Y"] month specs). Adding a [timedelta]
    past [MAXYEAR] raises [OverflowError], modelled as [None]. *)

Local Open Scope Z_scope.

Record date := mkdate { year : Z; month : Z; day : Z }.

#[global] Instance date_eq_dec : EqDecision date.
Proof. solve_decision. Defined.

Definition MAXYEAR : Z := 9999.

(** [_is_leap]. *)
Definition _is_leap (y : Z) : bool :=
  (y mod 4 =? 0) && (negb (y mod 100 =? 0) || (y mod 400 =? 0)).

(** [_days_in_month]. *)
Definition _days_in_month (y m : Z) : Z :=
  if m =? 2 then (if _is_leap y then 29 else 28)
  else if (m =? 4) || (m =? 6) || (m =? 9) || (m =? 11) then 30
  else 31.

Definition valid_date (d : date) : Prop :=
  1 <= year d <= MAXYEAR /\ 1 <= month d <= 12 /\
  1 <= day d <= _days_in_month (year d) (month d).

(** Datetime comparison: by [(year, month, day)]. *)
Definition date_le (a b : date) : bool :=
  (year a <? year b) ||
  ((year a =? year b) &&
   ((month a <? month b) || ((month a =? month b) && (day a <=? day b)))).

(** [d + timedelta(days=1)]. *)
Definition next_day (d : date) : option date :=
  if day d <? _days_in_month (year d) (month d)
  then Some (mkdate (year d) (month d) (day d + 1))
  else if month d <? 12 then Some (mkdate (year d) (month d + 1) 1)
  else if year d <? MAXYEAR then Some (mkdate (year d + 1) 1 1)
  else None.

(** [d + timedelta(days=n)], one day at a time: the sum overflows exactly
    when one of the steps does, the dates being ordered. *)
Fixpoint add_days (n : nat) (d : date) : option date :=
  match n with
  | O => Some d
  | S k => d' ← next_day d; add_days k d'
  end.

(** [_days_before_year] and [_days_before_month] (Python's [datetime]). *)
Definition _days_before_year (y : Z) : Z :=
  let y' := y - 1 in y' * 365 + y' / 4 - y' / 100 + y' / 400.

Definition _days_before_month (y m : Z) : Z :=
  let base := match m with
              | 1 => 0 | 2 => 31 | 3 => 59 | 4 => 90 | 5 => 120 | 6 => 151
              | 7 => 181 | 8 => 212 | 9 => 243 | 10 => 273 | 11 => 304
              | _ => 334 end in
  base + (if (2 <? m) && _is_leap y then 1 else 0).

(** [date.toordinal()]. *)
Definition toordinal (d : date) : Z :=
  _days_before_year (year d) + _days_before_month (year d) (month d) + day d.

(** The [while cur <= end] loop of [_date_range]; [fuel] bounds the number
    of iterations (see [_date_range]). *)
Fixpoint date_range_loop (fuel : nat) (cur end_ : date) : option (list date) :=
  match fuel with
  | O => Some []
  | S f =>
      if date_le cur end_ then
        cur' ← next_day cur;
        rest ← date_range_loop f cur' end_;
        Some (cur :: rest)
      else Some []
  end.

(** [_date_range(start, end)]: the loop runs [toordinal end - toordinal start + 1]
    times, the fuel leaves one more. *)
Definition _date_range (start end_ : date) : option (list date) :=
  date_range_loop (Z.to_nat (toordinal end_ - toordinal start + 2)) start end_.

(** The loop of [_month_prefixes]; [cur] is the first of a month. *)
Fixpoint month_loop (fuel : nat) (cur end_ : date) : option (list (Z * Z)) :=
  match fuel with
  | O => Some []
  | S f =>
      if date_le cur end_ then
        nxt ← add_days 32 cur;
        rest ← month_loop f (mkdate (year nxt) (month nxt) 1) end_;
        Some ((year cur, month cur) :: rest)
      else Some []
  end.

(** [_month_prefixes(start, end)]: [cur = start.replace(day=1)], then one
    iteration per month up to [end]. *)
Definition _month_prefixes (start end_ : date) : option (list (Z * Z)) :=
  month_loop (Z.to_nat ((year end_ - year start) * 12 + (month end_ - month start) + 2))
    (mkdate (year start) (month start) 1) end_.

(* ================================================================== *)
(** * Properties *)

Local Open Scope Z_scope.

(** The stage totals of the demo (the output of [aggregate_stages]). *)
Definition mock_stage_totals : gmap string Z :=
  list_to_map
    [ ("AA_client_Initialization", 800); ("OTP_Based_Sign_in_Sign_up", 450);
      ("View_Consent_Details", 1050); ("Discovery", 600); ("Linking", 1600);
      ("Rejected_Consent_Requests", 1950); ("Approved_Consent_Requests", 1250);
      ("FIP_Rejected_Consent_Artefacts", 150); ("FIP_Accepted_Consent_Artefacts", 1100);
      ("Data_Fetch_Success", 820); ("Data_Fetch_Not_Attempted", 50) ].

(** The four stage columns that do not enter the cohort. *)
Definition NON_COHORT_COLUMNS : list string :=
  [ "FIP_Rejected_Consent_Artefacts"; "FIP_Accepted_Consent_Artefacts";
    "Data_Fetch_Success"; "Data_Fetch_Not_Attempted" ].

(** Rewrites the known lookups of [H], then splits on the other reads of
    the option chain, dropping the failing branches. *)
Ltac open_build H :=
  unfold build_report_table, total_users in H;
  repeat match goal with
         | Hk : ?m !! ?k = Some _ |- _ => rewrite Hk in H
         end;
  repeat match type of H with
         | context [?m !! ?k] =>
             let E := fresh "E" in
             destruct (m !! k) eqn:E; cbn in H; [| discriminate H]
         end;
  cbn in H; injection H as <-.

Lemma aggregate_stages_mock : aggregate_stages mock_stage_df = Some mock_stage_totals.
Proof. vm_compute. reflexivity. Qed.



(** C1. The cohort size of the funnel table builder is the sum of the seven
    stage categories client initialisation, OTP sign-in, view consent
    details, discovery, linking, rejected and approved consent requests; it
    is the count of the Consent Initiated row; and changing any of the four
    other stage categories leaves it unchanged. *)
Theorem cohort_size_seven_categories (stage_totals : gmap string Z) (a b c d e f g : Z) :
  stage_totals !! "AA_client_Initialization" = Some a ->
  stage_totals !! "OTP_Based_Sign_in_Sign_up" = Some b ->
  stage_totals !! "View_Consent_Details" = Some c ->
  stage_totals !! "Discovery" = Some d ->
  stage_totals !! "Linking" = Some e ->
  stage_totals !! "Rejected_Consent_Requests" = Some f ->
  stage_totals !! "Approved_Consent_Requests" = Some g ->
  total_users stage_totals = Some (a + b + c + d + e + f + g) /\
  (forall otp disc fi t, build_report_table stage_totals otp disc fi = Some t ->
     cell_at t 6 2 = Some (CInt (a + b + c + d + e + f + g))) /\
  (forall k v, k ∈ NON_COHORT_COLUMNS ->
     total_users (<[k := v]> stage_totals) = total_users stage_totals).
Proof.
  intros Ha Hb Hc Hd He Hf Hg. split; [|split].
  - unfold total_users. rewrite Ha, Hb, Hc, Hd, He, Hf, Hg. reflexivity.
  - intros otp disc fi t H. open_build H. reflexivity.
  - intros k v Hk. unfold NON_COHORT_COLUMNS in Hk.
    repeat (apply elem_of_cons in Hk as [-> | Hk]);
      [ .. | apply elem_of_nil in Hk; contradiction ];
      unfold total_users; rewrite !lookup_insert_ne by discriminate; reflexivity.
Qed.

Lemma cohort_size_seven_categories_witness :
  total_users mock_stage_totals = Some 7700.
Proof.
  refine (proj1 (cohort_size_seven_categories mock_stage_totals 800 450 1050 600 1600 1950 1250
    _ _ _ _ _ _ _)); reflexivity.
Defined.



(** C3. The stage-2 (Registration/Login) dropoff is OTP sign-in plus view
    consent details; its sub-rows are the incorrect-OTP count, the
    OTP-not-entered count and the unclamped residual
    [(OTP sign-in - incorrect - not entered) + view consent details], and
    the three sub-rows sum to the stage-2 dropoff. *)
Theorem auth_dropoff_decomposition (stage_totals : gmap string Z)
    (otp : list otp_row) (disc : list disc_row) (fi : list fi_row) (t : table)
    (d2 view_drop : Z) :
  stage_totals !! "OTP_Based_Sign_in_Sign_up" = Some d2 ->
  stage_totals !! "View_Consent_Details" = Some view_drop ->
  build_report_table stage_totals otp disc fi = Some t ->
  let otp_wrong := otp_first Total_Incorrect_OTP_Entered otp in
  let otp_miss := otp_first Total_OTP_Not_Entered otp in
  cell_at t 8 5 = Some (CInt (d2 + view_drop)) /\
  cell_at t 9 5 = Some (CInt otp_wrong) /\
  cell_at t 10 5 = Some (CInt otp_miss) /\
  cell_at t 11 5 = Some (CInt ((d2 - otp_wrong - otp_miss) + view_drop)) /\
  otp_wrong + otp_miss + ((d2 - otp_wrong - otp_miss) + view_drop) = d2 + view_drop.
Proof.
  intros H2 Hv H. open_build H. cbn.
  repeat split; try reflexivity.
  - do 2 f_equal. lia.
  - lia.
Qed.

(** On the demo data the residual is negative (-150) and emitted as is. *)
Lemma auth_dropoff_decomposition_witness :
  cell_at (default [] (build_report_table mock_stage_totals mock_otp_df mock_discovery_df
             mock_fi_status_df)) 11 5 = Some (CInt ((450 - 450 - 1200) + 1050)) /\
  (450 - 450 - 1200) + 1050 = -150.
Proof.
  split; [| reflexivity].
  refine (proj1 (proj2 (proj2 (proj2
    (auth_dropoff_decomposition mock_stage_totals mock_otp_df mock_discovery_df
       mock_fi_status_df _ 450 1050 _ _ _))))); reflexivity.
Defined.

(** C8. The "User did not take any action" sub-row of Consent Request Review
    carries the empty string as its dropoff count and percentage (never 0),
    while the sibling sub-row carries the rejected-consent count. *)
Theorem no_action_row_blank (stage_totals : gmap string Z)
    (otp : list otp_row) (disc : list disc_row) (fi : list fi_row) (t : table) (rej : Z) :
  stage_totals !! "Rejected_Consent_Requests" = Some rej ->
  build_report_table stage_totals otp disc fi = Some t ->
  t !! 20%nat = Some [CStr ""; CStr ""; CStr ""; CStr "";
                  CStr (arrow ++ "User did not take any action"); CStr ""; CStr ""] /\
  cell_at t 20 5 = Some (CStr "") /\ cell_at t 20 6 = Some (CStr "") /\
  cell_at t 20 5 <> Some (CInt 0) /\
  cell_at t 19 4 = Some (CStr (arrow ++ "User rejected the consent")) /\
  cell_at t 19 5 = Some (CInt rej).
Proof.
  intros Hr H. open_build H. cbn.
  repeat split; try reflexivity. discriminate.
Qed.

Lemma no_action_row_blank_witness :
  cell_at (default [] (build_report_table mock_stage_totals mock_otp_df mock_discovery_df
             mock_fi_status_df)) 20 5 = Some (CStr "").
Proof.
  refine (proj1 (proj2
    (no_action_row_blank mock_stage_totals mock_otp_df mock_discovery_df
       mock_fi_status_df _ 1950 _ _))); reflexivity.
Defined.

(** C7. On the demo data ([get_mock_funnel_data], aggregated by
    [aggregate_stages]) the cohort is 7700, the stage-1 dropoff is 800 at
    10.4 percent, and 16.2 percent of the initial users approved the
    consent. *)
Theorem demo_report_values :
  total_users mock_stage_totals = Some 7700 /\
  exists t, demo_table = Some t /\
    cell_at t 6 2 = Some (CInt 7700) /\
    cell_at t 7 5 = Some (CInt 800) /\
    cell_at t 7 6 = Some (CFloat (104 # 10)) /\
    cell_at t 1 1 = Some (CFloat (162 # 10)) /\
    cell_at t 18 3 = Some (CFloat (162 # 10)).
Proof.
  split; [reflexivity |].
  destruct demo_table as [t|] eqn:E.
  - exists t. split; [reflexivity |].
    vm_compute in E. injection E as <-. vm_compute. repeat split.
  - vm_compute in E. discriminate E.
Qed.










(** The table rows of the nine stages, in order. *)
Definition STAGE_ROWS : list nat := [6; 7; 8; 12; 17; 18; 21; 22; 23]%nat.

(** The integer of a count cell (0 for any other cell). *)
Definition int_at (t : table) (r c : nat) : Z :=
  match cell_at t r c with Some (CInt z) => z | _ => 0 end.

(** Every integer dropoff count (column 5 of the rows after the headers) is
    non-negative. *)
Definition dropoffs_nonneg (t : table) : bool :=
  forallb (fun r => match cell_at t r 5 with Some (CInt z) => 0 <=? z | _ => true end)
    (seq 6 18).

Fixpoint nonincreasing (l : list Z) : bool :=
  match l with
  | x :: ((y :: _) as tl) => (y <=? x) && nonincreasing tl
  | _ => true
  end.

(** The successful counts down the stage rows. *)
Definition successful_counts (t : table) : list Z := map (fun r => int_at t r 2) STAGE_ROWS.

(** Stage totals of 0 except 5 FIP-accepted consent artefacts. *)
Definition passthrough_stage_totals : gmap string Z :=
  <["FIP_Accepted_Consent_Artefacts" := 5]>
    (list_to_map (map (fun k => (k, 0)) STAGE_COLUMNS)).

(** C6 (counterexample). Every dropoff count is 0, yet the successful count
    rises from 0 (Consent Request Review) to 5 (Consent Artefact Delivery). *)
Lemma successful_counts_not_monotone :
  exists t, build_report_table passthrough_stage_totals [] [] [] = Some t /\
    dropoffs_nonneg t = true /\
    int_at t 18 2 = 0 /\ int_at t 21 2 = 5 /\
    nonincreasing (successful_counts t) = false.
Proof.
  destruct (build_report_table passthrough_stage_totals [] [] []) as [t|] eqn:E.
  - exists t. split; [reflexivity |].
    vm_compute in E. injection E as <-. vm_compute. repeat split.
  - vm_compute in E. discriminate E.
Qed.

(** C6 (amended). When the dropoff counts are non-negative, the successful
    counts of Consent Initiated, FIU initiated AA Client, Registration/Login,
    Account Discovery and Account Linking (the running cohort subtraction)
    are non-increasing, and the FI Fetch successful count is at most the FI
    Request one; the Consent Request Review, Consent Artefact Delivery and FI
    Request successful counts are raw counts, not bounded by the stage
    before them. *)
Theorem running_successful_nonincreasing (stage_totals : gmap string Z)
    (otp : list otp_row) (disc : list disc_row) (fi : list fi_row) (t : table) :
  build_report_table stage_totals otp disc fi = Some t ->
  dropoffs_nonneg t = true ->
  int_at t 7 2 <= int_at t 6 2 /\ int_at t 8 2 <= int_at t 7 2 /\
  int_at t 12 2 <= int_at t 8 2 /\ int_at t 17 2 <= int_at t 12 2 /\
  int_at t 23 2 <= int_at t 22 2.
Proof.
  intros H Hnn. open_build H. cbn in Hnn |- *.
  repeat (apply andb_prop in Hnn as [? Hnn]).
  repeat match goal with Hb : (_ <=? _) = true |- _ => apply Z.leb_le in Hb end.
  lia.
Qed.

Lemma running_successful_nonincreasing_witness :
  int_at (default [] (build_report_table mock_stage_totals [] mock_discovery_df
             mock_fi_status_df)) 23 2 <=
  int_at (default [] (build_report_table mock_stage_totals [] mock_discovery_df
             mock_fi_status_df)) 22 2.
Proof.
  refine (proj2 (proj2 (proj2 (proj2
    (running_successful_nonincreasing mock_stage_totals [] mock_discovery_df
       mock_fi_status_df _ _ _))))); vm_compute; reflexivity.
Defined.



Lemma aggregate_columns_lookup (stage_df : gmap string (list Q)) (cols : list string)
    (m : gmap string Z) (c : string) (col : list Q) :
  aggregate_columns stage_df cols = Some m -> c ∈ cols -> stage_df !! c = Some col ->
  m !! c = Some (column_total col).
Proof.
  revert m. induction cols as [|a cs IH]; intros m Hagg Hin Hc.
  - apply elem_of_nil in Hin. contradiction.
  - cbn in Hagg. destruct (stage_df !! a) as [cola|] eqn:Ea; cbn in Hagg; [| discriminate].
    destruct (aggregate_columns stage_df cs) as [rest|] eqn:Er; cbn in Hagg; [| discriminate].
    injection Hagg as <-.
    destruct (decide (c = a)) as [-> | Hne].
    + rewrite lookup_insert_eq. congruence.
    + rewrite lookup_insert_ne by congruence.
      apply elem_of_cons in Hin as [-> | Hin]; [contradiction |].
      exact (IH rest eq_refl Hin Hc).
Qed.




(** The last representable day, [datetime.max] at midnight. *)
Definition max_date : date := mkdate MAXYEAR 12 31.

(** C9. A range ending on 31 December 9999 is well formed and start <= end,
    but the increment after its last day overflows, so [_date_range] and
    [_month_prefixes] fail instead of returning the one day (and month). *)
Theorem date_range_overflow_at_max :
  valid_date max_date /\ date_le max_date max_date = true /\
  _date_range max_date max_date = None /\
  _month_prefixes max_date max_date = None /\
  _month_prefixes (mkdate 9999 11 30) (mkdate 9999 12 1) = None.
Proof.
  split; [unfold valid_date, max_date, MAXYEAR; cbn; lia |].
  split; [reflexivity |].
  split; [vm_compute; reflexivity |].
  split; vm_compute; reflexivity.
Qed.

(* ------------------------------------------------------------------ *)
(** ** Away from [datetime.max], the day-grain resolver is exact *)

Module Calendar.

(** [datetime] comparison, as a proposition. *)
Definition lex_le (a b : date) : Prop :=
  year a < year b \/
  (year a = year b /\ (month a < month b \/ (month a = month b /\ day a <= day b))).

Lemma date_le_spec (a b : date) : date_le a b = true <-> lex_le a b.
Proof.
  unfold date_le, lex_le.
  rewrite !Bool.orb_true_iff, !Bool.andb_true_iff, !Bool.orb_true_iff, !Bool.andb_true_iff,
    !Z.ltb_lt, !Z.eqb_eq, Z.leb_le.
  reflexivity.
Qed.

Lemma days_in_month_bounds (y m : Z) : 28 <= _days_in_month y m <= 31.
Proof.
  unfold _days_in_month.
  destruct (m =? 2); [destruct (_is_leap y); lia |].
  destruct ((m =? 4) || (m =? 6) || (m =? 9) || (m =? 11)); lia.
Qed.

Lemma days_before_month_step (y m : Z) :
  1 <= m <= 11 ->
  _days_before_month y (m + 1) = _days_before_month y m + _days_in_month y m.
Proof.
  intros Hm.
  assert (m = 1 \/ m = 2 \/ m = 3 \/ m = 4 \/ m = 5 \/ m = 6 \/ m = 7 \/ m = 8 \/
          m = 9 \/ m = 10 \/ m = 11) as Hc by lia.
  repeat destruct Hc as [-> | Hc]; subst;
    unfold _days_before_month, _days_in_month; cbn; destruct (_is_leap y); reflexivity.
Qed.

Lemma days_before_month_dec (y : Z) :
  _days_before_month y 12 + 31 = 365 + (if _is_leap y then 1 else 0).
Proof. unfold _days_before_month. cbn. destruct (_is_leap y); reflexivity. Qed.

Lemma days_before_year_step (y : Z) :
  _days_before_year (y + 1) = _days_before_year y + 365 + (if _is_leap y then 1 else 0).
Proof.
  unfold _days_before_year, _is_leap. replace (y + 1 - 1) with y by lia.
  destruct (Z.eqb_spec (y mod 4) 0); destruct (Z.eqb_spec (y mod 100) 0);
    destruct (Z.eqb_spec (y mod 400) 0); cbn;
    Z.div_mod_to_equations; lia.
Qed.

(** A date's position in the [year, month, day] order, as one integer. *)
Definition rank (d : date) : Z := year d * 1000 + month d * 40 + day d.

Lemma next_day_valid (d d' : date) :
  valid_date d -> next_day d = Some d' ->
  valid_date d' /\ toordinal d' = toordinal d + 1 /\ rank d < rank d'.
Proof.
  unfold valid_date, next_day, toordinal, rank, MAXYEAR. intros (Hy & Hm & Hd) H.
  destruct (Z.ltb_spec (day d) (_days_in_month (year d) (month d))) as [H1 | H1].
  - injection H as <-. cbn. pose proof (days_in_month_bounds (year d) (month d)). lia.
  - destruct (Z.ltb_spec (month d) 12) as [H2 | H2].
    + injection H as <-. cbn.
      pose proof (days_in_month_bounds (year d) (month d + 1)).
      pose proof (days_in_month_bounds (year d) (month d)).
      rewrite days_before_month_step by lia. lia.
    + destruct (Z.ltb_spec (year d) 9999) as [H3 | H3]; [| discriminate].
      injection H as <-. cbn.
      assert (month d = 12) as Hm12 by lia. rewrite Hm12 in *.
      assert (_days_in_month (year d) 12 = 31) as H31 by reflexivity.
      rewrite days_before_year_step.
      pose proof (days_before_month_dec (year d)).
      unfold _days_before_month in *. cbn in *. lia.
Qed.

(** From a date strictly before a valid [b], one day later is at most [b]. *)
Lemma next_day_below (a b : date) :
  valid_date a -> valid_date b -> lex_le a b -> a <> b ->
  exists a', next_day a = Some a' /\ lex_le a' b.
Proof.
  destruct a as [ya ma da], b as [yb mb db].
  unfold valid_date, lex_le, next_day, MAXYEAR; cbn. intros (Hya & Hma & Hda) (Hyb & Hmb & Hdb) Hle Hne.
  assert (Hlt : ya < yb \/ (ya = yb /\ (ma < mb \/ (ma = mb /\ da < db)))).
  { destruct Hle as [? | [-> [? | [-> Hd]]]]; [lia | lia |].
    destruct (Z.eq_dec da db) as [-> | ?]; [contradiction | lia]. }
  destruct (Z.ltb_spec da (_days_in_month ya ma)).
  - eexists. split; [reflexivity |]. cbn. lia.
  - destruct (Z.ltb_spec ma 12).
    + eexists. split; [reflexivity |]. cbn.
      destruct Hlt as [? | [-> [? | [-> ?]]]]; lia.
    + destruct (Z.ltb_spec ya 9999).
      * eexists. split; [reflexivity |]. cbn.
        destruct Hlt as [? | [-> [? | [-> ?]]]]; lia.
      * exfalso. destruct Hlt as [? | [-> [? | [-> ?]]]]; lia.
Qed.

(** [toordinal] is strictly increasing in the date order. *)
Lemma toordinal_lt_aux (n : nat) : forall a b : date,
  valid_date a -> valid_date b -> lex_le a b -> a <> b ->
  (Z.to_nat (rank b - rank a) <= n)%nat -> toordinal a < toordinal b.
Proof.
  induction n as [|n IH]; intros a b Ha Hb Hle Hne Hn.
  - exfalso. destruct a as [ya ma da], b as [yb mb db].
    unfold valid_date, lex_le, rank in *; cbn in *.
    pose proof (days_in_month_bounds ya ma). pose proof (days_in_month_bounds yb mb).
    assert (ya = yb /\ ma = mb /\ da = db) as (-> & -> & ->) by lia. contradiction.
  - destruct (next_day_below a b Ha Hb Hle Hne) as [a' [Hnext Hle']].
    destruct (next_day_valid a a' Ha Hnext) as (Ha' & Hord & Hrank).
    destruct (decide (a' = b)) as [<- | Hne']; [lia |].
    specialize (IH a' b Ha' Hb Hle' Hne' ltac:(lia)). lia.
Qed.

Lemma toordinal_lt (a b : date) :
  valid_date a -> valid_date b -> lex_le a b -> a <> b -> toordinal a < toordinal b.
Proof.
  intros Ha Hb Hle Hne.
  exact (toordinal_lt_aux (Z.to_nat (rank b - rank a)) a b Ha Hb Hle Hne (le_n _)).
Qed.

Lemma lex_total (a b : date) : lex_le a b \/ lex_le b a.
Proof. unfold lex_le. lia. Qed.

Lemma lex_antisym (a b : date) : lex_le a b -> lex_le b a -> a = b.
Proof.
  destruct a as [ya ma da], b as [yb mb db]. unfold lex_le; cbn. intros H1 H2.
  assert (ya = yb /\ ma = mb /\ da = db) as (-> & -> & ->) by lia. reflexivity.
Qed.

(** On valid dates, the [datetime] order is the order of [toordinal]. *)
Lemma date_le_toordinal (a b : date) :
  valid_date a -> valid_date b -> date_le a b = true <-> toordinal a <= toordinal b.
Proof.
  intros Ha Hb. rewrite date_le_spec. split.
  - intros Hle. destruct (decide (a = b)) as [-> | Hne]; [lia |].
    pose proof (toordinal_lt a b Ha Hb Hle Hne). lia.
  - intros Hord. destruct (lex_total a b) as [Hle | Hle]; [exact Hle |].
    destruct (decide (b = a)) as [-> | Hne].
    + exact Hle.
    + pose proof (toordinal_lt b a Hb Ha Hle Hne). lia.
Qed.

Lemma toordinal_inj (a b : date) :
  valid_date a -> valid_date b -> toordinal a = toordinal b -> a = b.
Proof.
  intros Ha Hb Heq. apply lex_antisym; apply date_le_spec; apply date_le_toordinal; auto; lia.
Qed.

(** [a, a + 1, ..., a + n - 1]. *)
Fixpoint ord_seq (a : Z) (n : nat) : list Z :=
  match n with
  | O => []
  | S k => a :: ord_seq (a + 1) k
  end.

Lemma in_ord_seq (a x : Z) (n : nat) : In x (ord_seq a n) <-> a <= x < a + Z.of_nat n.
Proof.
  revert a. induction n as [|n IH]; intros a; cbn; [lia |].
  rewrite IH. lia.
Qed.

Lemma next_day_some (d : date) : valid_date d -> d <> max_date -> exists d', next_day d = Some d'.
Proof.
  destruct d as [y m dd]. unfold valid_date, next_day, max_date, MAXYEAR; cbn.
  intros (Hy & Hm & Hd) Hne.
  destruct (Z.ltb_spec dd (_days_in_month y m)); [eexists; reflexivity |].
  destruct (Z.ltb_spec m 12); [eexists; reflexivity |].
  destruct (Z.ltb_spec y 9999); [eexists; reflexivity |].
  exfalso. apply Hne.
  assert (y = 9999 /\ m = 12) as [-> ->] by lia.
  assert (_days_in_month 9999 12 = 31) as H31 by reflexivity.
  f_equal. lia.
Qed.

(** The [while cur <= end] loop, from a valid [cur] not after [end], returns
    the valid days of ordinals [toordinal cur .. toordinal end]. *)
Lemma date_range_loop_days (e : date) :
  valid_date e -> (exists e', next_day e = Some e') ->
  forall (n : nat) (cur : date), valid_date cur -> toordinal cur <= toordinal e ->
  (Z.to_nat (toordinal e - toordinal cur + 1) <= n)%nat ->
  exists l, date_range_loop n cur e = Some l /\
    map toordinal l = ord_seq (toordinal cur) (Z.to_nat (toordinal e - toordinal cur + 1)) /\
    Forall valid_date l.
Proof.
  intros He Hnext n. induction n as [|n IH]; intros cur Hc Hle Hn; [lia |].
  cbn. rewrite (proj2 (date_le_toordinal cur e Hc He) Hle).
  assert (exists cur', next_day cur = Some cur') as [cur' Hcur'].
  { destruct (decide (cur = e)) as [-> | Hne]; [exact Hnext |].
    destruct (next_day_below cur e Hc He) as [c' [Hc' _]]; [| exact Hne |].
    - apply date_le_spec, date_le_toordinal; auto.
    - eauto. }
  rewrite Hcur'. cbn.
  destruct (next_day_valid cur cur' Hc Hcur') as (Hv' & Hord' & _).
  replace (Z.to_nat (toordinal e - toordinal cur + 1))
    with (S (Z.to_nat (toordinal e - toordinal cur'  + 1))) by lia.
  destruct (Z.le_gt_cases (toordinal cur') (toordinal e)) as [Hle' | Hgt].
  - destruct (IH cur' Hv' Hle' ltac:(lia)) as [l (Hl & Hmap & Hval)].
    rewrite Hl. cbn. eexists. split; [reflexivity |]. cbn. split.
    + rewrite Hmap, Hord'. reflexivity.
    + constructor; assumption.
  - replace (Z.to_nat (toordinal e - toordinal cur' + 1)) with O by lia.
    assert (date_range_loop n cur' e = Some []) as Hnil.
    { destruct n as [|n]; [reflexivity |]. cbn.
      destruct (date_le cur' e) eqn:Ele; [| reflexivity].
      apply (date_le_toordinal cur' e Hv' He) in Ele. lia. }
    rewrite Hnil. cbn. eexists. split; [reflexivity |]. cbn. split.
    + reflexivity.
    + constructor; [assumption | constructor].
Qed.

(** For valid dates [start <= end] with [end] before [datetime.max],
    [_date_range] returns the valid days whose ordinals run, one by one, from
    [start] to [end] (ascending, no gap, no duplicate): exactly the calendar
    days [d] with [start <= d <= end]. *)
Theorem date_range_exact (start end_ : date) :
  valid_date start -> valid_date end_ -> date_le start end_ = true -> end_ <> max_date ->
  exists l, _date_range start end_ = Some l /\
    map toordinal l =
      ord_seq (toordinal start) (Z.to_nat (toordinal end_ - toordinal start + 1)) /\
    Forall valid_date l /\
    (forall d, valid_date d -> In d l <-> date_le start d = true /\ date_le d end_ = true).
Proof.
  intros Hs He Hle Hmax.
  apply (date_le_toordinal start end_ Hs He) in Hle.
  destruct (date_range_loop_days end_ He (next_day_some end_ He Hmax)
              (Z.to_nat (toordinal end_ - toordinal start + 2)) start Hs Hle ltac:(lia))
    as [l (Hl & Hmap & Hval)].
  exists l. unfold _date_range. rewrite Hl. split; [reflexivity |]. split; [exact Hmap |].
  split; [exact Hval |].
  intros d Hd. rewrite (date_le_toordinal start d Hs Hd), (date_le_toordinal d end_ Hd He).
  split.
  - intros Hin. apply (in_map toordinal) in Hin. rewrite Hmap, in_ord_seq in Hin. lia.
  - intros Hrange.
    assert (In (toordinal d) (map toordinal l)) as Hin by (rewrite Hmap, in_ord_seq; lia).
    apply in_map_iff in Hin as [x [Hx Hinx]].
    rewrite Forall_forall in Hval.
    assert (x = d) as <-.
    { apply toordinal_inj; [apply Hval; apply list_elem_of_In; exact Hinx | exact Hd | exact Hx]. }
    exact Hinx.
Qed.

Lemma date_range_exact_witness :
  _date_range (mkdate 2024 2 27) (mkdate 2024 3 2) =
    Some [mkdate 2024 2 27; mkdate 2024 2 28; mkdate 2024 2 29; mkdate 2024 3 1; mkdate 2024 3 2] /\
  exists l, _date_range (mkdate 2024 2 27) (mkdate 2024 3 2) = Some l /\ Forall valid_date l.
Proof.
  split; [vm_compute; reflexivity |].
  destruct (date_range_exact (mkdate 2024 2 27) (mkdate 2024 3 2)) as (l & Hl & _ & Hv & _).
  - unfold valid_date, MAXYEAR. cbn -[_days_in_month].
    replace (_days_in_month 2024 2) with 29 by reflexivity. lia.
  - unfold valid_date, MAXYEAR. cbn -[_days_in_month].
    replace (_days_in_month 2024 3) with 31 by reflexivity. lia.
  - reflexivity.
  - unfold max_date. congruence.
  - exists l. split; assumption.
Defined.

(** ** The month-grain resolver away from December 9999 *)

Lemma add_days_valid (n : nat) : forall d d',
  valid_date d -> add_days n d = Some d' ->
  valid_date d' /\ toordinal d' = toordinal d + Z.of_nat n.
Proof.
  induction n as [|n IH]; intros d d' Hd H; cbn in H.
  - injection H as <-. split; [exact Hd | lia].
  - destruct (next_day d) as [d1|] eqn:E; cbn in H; [| discriminate].
    destruct (next_day_valid d d1 Hd E) as (Hv1 & Ho1 & _).
    destruct (IH d1 d' Hv1 H) as [Hv' Ho']. split; [exact Hv' | lia].
Qed.

Lemma toordinal_le_max (d : date) : valid_date d -> toordinal d <= toordinal max_date.
Proof.
  intros Hd. apply date_le_toordinal; [exact Hd | |].
  - unfold valid_date, max_date, MAXYEAR. cbn -[_days_in_month].
    replace (_days_in_month 9999 12) with 31 by reflexivity. lia.
  - apply date_le_spec. destruct d as [y m dd]. unfold valid_date, lex_le, max_date, MAXYEAR in *.
    cbn in *. pose proof (days_in_month_bounds y m). lia.
Qed.

Lemma add_days_some (n : nat) : forall d,
  valid_date d -> toordinal d + Z.of_nat n <= toordinal max_date ->
  exists d', add_days n d = Some d'.
Proof.
  induction n as [|n IH]; intros d Hd Hle; [eexists; reflexivity |].
  destruct (next_day_some d Hd) as [d1 E].
  { intros ->. lia. }
  destruct (next_day_valid d d1 Hd E) as (Hv1 & Ho1 & _).
  destruct (IH d1 Hv1 ltac:(lia)) as [d' Hd']. exists d'. cbn. rewrite E. exact Hd'.
Qed.

(** The month after [(y, m)]. *)
Definition next_month (y m : Z) : Z * Z := if m <? 12 then (y, m + 1) else (y + 1, 1).

(** [(y, m)] and the [n - 1] months after it. *)
Fixpoint month_seq (y m : Z) (n : nat) : list (Z * Z) :=
  match n with
  | O => []
  | S k => (y, m) :: month_seq (fst (next_month y m)) (snd (next_month y m)) k
  end.

(** A month's index, counting months from year 0. *)
Definition month_index (y m : Z) : Z := y * 12 + m.

Lemma next_month_index (y m : Z) :
  1 <= m <= 12 ->
  month_index (fst (next_month y m)) (snd (next_month y m)) = month_index y m + 1 /\
  1 <= snd (next_month y m) <= 12.
Proof.
  intros Hm. unfold next_month, month_index.
  destruct (Z.ltb_spec m 12); cbn; lia.
Qed.

(** From the first of a month other than December 9999, [+ timedelta(days=32)]
    lands in the next month, and [.replace(day=1)] gives its first day. *)
Lemma add_32_next_month (y m : Z) :
  valid_date (mkdate y m 1) -> month_index y m < month_index MAXYEAR 12 ->
  exists nxt, add_days 32 (mkdate y m 1) = Some nxt /\
    year nxt = fst (next_month y m) /\ month nxt = snd (next_month y m).
Proof.
  intros Hv Hidx.
  destruct Hv as (Hy & Hm & _). cbn in Hy, Hm.
  pose (c := mkdate (fst (next_month y m)) (snd (next_month y m)) (33 - _days_in_month y m)).
  assert (Hc : valid_date c /\ toordinal c = toordinal (mkdate y m 1) + 32).
  { unfold c, next_month, valid_date, toordinal, month_index, MAXYEAR in *. cbn.
    pose proof (days_in_month_bounds y m).
    destruct (Z.ltb_spec m 12) as [Hm12 | Hm12]; cbn.
    - pose proof (days_in_month_bounds y (m + 1)).
      rewrite days_before_month_step by lia. lia.
    - assert (m = 12) as -> by lia.
      replace (_days_in_month y 12) with 31 by reflexivity.
      rewrite days_before_year_step. pose proof (days_before_month_dec y).
      pose proof (days_in_month_bounds (y + 1) 1).
      unfold _days_before_month in *. cbn in *. lia. }
  destruct Hc as [Hcv Hco].
  assert (Hv0 : valid_date (mkdate y m 1)).
  { unfold valid_date. cbn. pose proof (days_in_month_bounds y m). lia. }
  destruct (add_days_some 32 (mkdate y m 1) Hv0) as [nxt Hnxt].
  { pose proof (toordinal_le_max c Hcv). lia. }
  destruct (add_days_valid 32 _ _ Hv0 Hnxt) as [Hnv Hno].
  assert (nxt = c) as ->.
  { apply toordinal_inj; [exact Hnv | exact Hcv |]. cbn in Hno. lia. }
  exists c. split; [exact Hnxt | split; reflexivity].
Qed.

Lemma month_loop_months (e : date) :
  valid_date e -> month_index (year e) (month e) < month_index MAXYEAR 12 ->
  forall (n : nat) (y m : Z), valid_date (mkdate y m 1) ->
  month_index y m <= month_index (year e) (month e) ->
  (Z.to_nat (month_index (year e) (month e) - month_index y m + 1) <= n)%nat ->
  month_loop n (mkdate y m 1) e =
    Some (month_seq y m (Z.to_nat (month_index (year e) (month e) - month_index y m + 1))).
Proof.
  intros He Hemax n. induction n as [|n IH]; intros y m Hc Hle Hn; [lia |].
  assert (Hle_date : date_le (mkdate y m 1) e = true).
  { apply date_le_spec. unfold lex_le, month_index, valid_date in *. cbn in *. lia. }
  cbn -[add_days date_le]. rewrite Hle_date.
  destruct (add_32_next_month y m Hc ltac:(lia)) as (nxt & Hnxt & Hny & Hnm).
  rewrite Hnxt. cbn. rewrite Hny, Hnm.
  pose proof (add_days_valid 32 _ _ Hc Hnxt) as [Hv _].
  destruct Hc as (Hy & Hm & _). cbn in Hy, Hm.
  destruct (next_month_index y m Hm) as [Hidx Hnm'].
  assert (Hnv : valid_date (mkdate (fst (next_month y m)) (snd (next_month y m)) 1)).
  { unfold valid_date in *. rewrite Hny, Hnm in Hv.
    pose proof (days_in_month_bounds (fst (next_month y m)) (snd (next_month y m))).
    cbn. lia. }
  replace (Z.to_nat (month_index (year e) (month e) - month_index y m + 1)) with
    (S (Z.to_nat (month_index (year e) (month e)
                  - month_index (fst (next_month y m)) (snd (next_month y m)) + 1))) by lia.
  destruct (Z.le_gt_cases (month_index (fst (next_month y m)) (snd (next_month y m)))
              (month_index (year e) (month e))) as [Hle' | Hgt].
  - rewrite (IH _ _ Hnv Hle' ltac:(lia)). reflexivity.
  - replace (Z.to_nat (month_index (year e) (month e)
                       - month_index (fst (next_month y m)) (snd (next_month y m)) + 1)) with O
      by lia.
    destruct n as [|n]; [reflexivity |]. cbn.
    destruct (date_le (mkdate (fst (next_month y m)) (snd (next_month y m)) 1) e) eqn:Ele;
      [| reflexivity].
    exfalso. apply date_le_spec in Ele. destruct He as (_ & Hme & _).
    unfold lex_le, month_index in *. cbn in Ele, Hgt, Hnm'. lia.
Qed.

Lemma in_month_seq (y m y' m' : Z) (n : nat) :
  1 <= m <= 12 ->
  In (y', m') (month_seq y m n) <->
  1 <= m' <= 12 /\ month_index y m <= month_index y' m' < month_index y m + Z.of_nat n.
Proof.
  revert y m. induction n as [|n IH]; intros y m Hm; cbn; [lia |].
  destruct (next_month_index y m Hm) as [Hidx Hnm]. rewrite IH by exact Hnm.
  unfold month_index in *. split.
  - intros [Heq | H]; [injection Heq as <- <-; lia | lia].
  - intros H. destruct (Z.eq_dec (y' * 12 + m') (y * 12 + m)) as [Heq | Hne].
    + left. assert (y' = y /\ m' = m) as [-> ->] by lia. reflexivity.
    + right. lia.
Qed.

(** For valid dates [start <= end] with [end] before December 9999,
    [_month_prefixes] returns the months of [start] to [end], one by one: a
    month is listed exactly when it lies between the two. *)
Theorem month_prefixes_exact (start end_ : date) :
  valid_date start -> valid_date end_ -> date_le start end_ = true ->
  month_index (year end_) (month end_) < month_index MAXYEAR 12 ->
  let n := Z.to_nat (month_index (year end_) (month end_)
                     - month_index (year start) (month start) + 1) in
  _month_prefixes start end_ = Some (month_seq (year start) (month start) n) /\
  (forall y m, In (y, m) (month_seq (year start) (month start) n) <->
     1 <= m <= 12 /\ month_index (year start) (month start) <= month_index y m
                    <= month_index (year end_) (month end_)).
Proof.
  intros Hs He Hle Hmax n.
  assert (Hidx : month_index (year start) (month start) <= month_index (year end_) (month end_)).
  { apply date_le_spec in Hle. destruct Hs as (_ & Hms & _), He as (_ & Hme & _).
    unfold lex_le, month_index in *. lia. }
  assert (Hs1 : valid_date (mkdate (year start) (month start) 1)).
  { destruct Hs as (? & ? & _). unfold valid_date. cbn.
    pose proof (days_in_month_bounds (year start) (month start)). lia. }
  split.
  - unfold _month_prefixes.
    rewrite (month_loop_months end_ He Hmax _ _ _ Hs1 Hidx);
      unfold month_index in *; [reflexivity | lia].
  - intros y m. destruct Hs as (_ & Hm & _). rewrite in_month_seq by exact Hm.
    unfold n. lia.
Qed.

Lemma month_prefixes_exact_witness :
  _month_prefixes (mkdate 2023 11 27) (mkdate 2024 3 2) =
    Some (month_seq 2023 11 5) /\
  month_seq 2023 11 5 = [(2023, 11); (2023, 12); (2024, 1); (2024, 2); (2024, 3)].
Proof.
  split; [| reflexivity].
  refine (proj1 (month_prefixes_exact (mkdate 2023 11 27) (mkdate 2024 3 2) _ _ _ _)).
  - unfold valid_date, MAXYEAR. cbn -[_days_in_month].
    replace (_days_in_month 2023 11) with 30 by reflexivity. lia.
  - unfold valid_date, MAXYEAR. cbn -[_days_in_month].
    replace (_days_in_month 2024 3) with 31 by reflexivity. lia.
  - reflexivity.
  - unfold month_index, MAXYEAR. cbn. lia.
Defined.

End Calendar.

(* ------------------------------------------------------------------ *)

Module Table.

(** [pd.concat([df1, df2])] of two stage frames carrying the same columns:
    each column is the first frame's cells followed by the second's. *)
Definition concat_frames (df1 df2 : gmap string (list Q)) : gmap string (list Q) :=
  union_with (fun a b => Some (a ++ b)%list) df1 df2.


Lemma fold_add_acc (acc : Z) (l : list Z) :
  fold_right Z.add acc l = acc + fold_right Z.add 0 l.
Proof. induction l as [|x l IH]; cbn; lia. Qed.

Lemma column_total_app (a b : list Q) :
  column_total (a ++ b)%list = column_total a + column_total b.
Proof.
  unfold column_total. rewrite map_app, fold_right_app, fold_add_acc. lia.
Qed.

Lemma aggregate_columns_present (df : gmap string (list Q)) (cols : list string) (m : gmap string Z) :
  aggregate_columns df cols = Some m -> Forall (fun k => is_Some (df !! k)) cols.
Proof.
  revert m. induction cols as [|c cs IH]; intros m H; [constructor |].
  cbn in H. destruct (df !! c) eqn:Ec; cbn in H; [| discriminate].
  destruct (aggregate_columns df cs) eqn:Er; cbn in H; [| discriminate].
  constructor; [exists l; exact Ec | exact (IH _ eq_refl)].
Qed.

Lemma aggregate_columns_total (df : gmap string (list Q)) (cols : list string) :
  Forall (fun k => is_Some (df !! k)) cols -> is_Some (aggregate_columns df cols).
Proof.
  induction cols as [|c cs IH]; intros HF; [eexists; reflexivity |].
  apply Forall_cons in HF as [[col Hc] HF]. destruct (IH HF) as [m Hm].
  cbn. rewrite Hc, Hm. eexists. reflexivity.
Qed.


Lemma aggregate_columns_insert_other (df : gmap string (list Q)) (cols : list string)
    (k : string) (col : list Q) :
  k ∉ cols -> aggregate_columns (<[k := col]> df) cols = aggregate_columns df cols.
Proof.
  induction cols as [|c cs IH]; intros Hk; [reflexivity |].
  cbn. rewrite lookup_insert_ne by (intros ->; apply Hk; left).
  rewrite IH by (intros Hin; apply Hk; right; exact Hin). reflexivity.
Qed.

Lemma aggregate_columns_delete_other (df : gmap string (list Q)) (cols : list string) (k : string) :
  k ∉ cols -> aggregate_columns (delete k df) cols = aggregate_columns df cols.
Proof.
  induction cols as [|c cs IH]; intros Hk; [reflexivity |].
  cbn. rewrite lookup_delete_ne by (intros ->; apply Hk; left).
  rewrite IH by (intros Hin; apply Hk; right; exact Hin). reflexivity.
Qed.

Lemma dict_sum_insert (m : gmap string Z) (k : string) (v : Z) :
  m !! k = None -> dict_sum (<[k := v]> m) = v + dict_sum m.
Proof. unfold dict_sum. intros Hk. apply map_fold_insert_L; [intros; lia | exact Hk]. Qed.

Lemma disc_loop_sum (r : disc_row) :
  let m := disc_loop r DISC_COLUMNS ∅ in
  dict_sum m = dict_get0 m "Account_Discovered" + dict_get0 m "Account_not_Found"
               + dict_get0 m "FIP_Not_Selected" + dict_get0 m "Failure" + dict_get0 m "NO_STATUS".
Proof.
  cbn [disc_loop DISC_COLUMNS]. unfold dict_get0.
  rewrite !dict_sum_insert by (rewrite ?lookup_insert_ne by discriminate; apply lookup_empty).
  unfold dict_sum at 1. rewrite map_fold_empty.
  simplify_map_eq. lia.
Qed.






(** The builder's result is always 24 rows of 7 cells, the shape the Excel
    writer indexes. *)
Theorem build_report_table_shape (stage_totals : gmap string Z)
    (otp : list otp_row) (disc : list disc_row) (fi : list fi_row) (t : table) :
  build_report_table stage_totals otp disc fi = Some t ->
  length t = 24%nat /\ Forall (fun row => length row = 7%nat) t.
Proof. intros H. open_build H. split; [reflexivity | repeat constructor]. Qed.

Lemma build_report_table_shape_witness :
  length (default [] (build_report_table mock_stage_totals mock_otp_df mock_discovery_df
            mock_fi_status_df)) = 24%nat.
Proof.
  refine (proj1 (build_report_table_shape mock_stage_totals mock_otp_df mock_discovery_df
    mock_fi_status_df _ _)). vm_compute. reflexivity.
Defined.



(** Columns other than the eleven stage columns (the [Date] or [Entity_ID]
    of the stage CSV) do not affect [aggregate_stages]. *)
Theorem aggregate_ignores_other_columns (stage_df : gmap string (list Q))
    (k : string) (col : list Q) :
  k ∉ STAGE_COLUMNS ->
  aggregate_stages (<[k := col]> stage_df) = aggregate_stages stage_df /\
  aggregate_stages (delete k stage_df) = aggregate_stages stage_df.
Proof.
  intros Hk. split.
  - apply aggregate_columns_insert_other. exact Hk.
  - apply aggregate_columns_delete_other. exact Hk.
Qed.

Lemma aggregate_ignores_other_columns_witness :
  aggregate_stages (<["Date" := [1%Q]]> mock_stage_df) = aggregate_stages mock_stage_df.
Proof.
  refine (proj1 (aggregate_ignores_other_columns mock_stage_df "Date" [1%Q] _)).
  unfold STAGE_COLUMNS. intros Hin.
  repeat (apply elem_of_cons in Hin as [Hin | Hin]; [discriminate Hin |]).
  apply elem_of_nil in Hin. exact Hin.
Defined.

(** Aggregating two stage frames concatenated row-wise gives, column by
    column, the sum of their aggregates. *)
Theorem aggregate_concat_additive (df1 df2 : gmap string (list Q)) (m1 m2 : gmap string Z) :
  aggregate_stages df1 = Some m1 -> aggregate_stages df2 = Some m2 ->
  exists m, aggregate_stages (concat_frames df1 df2) = Some m /\
    Forall (fun c => exists a b, m1 !! c = Some a /\ m2 !! c = Some b /\ m !! c = Some (a + b))
      STAGE_COLUMNS.
Proof.
  intros H1 H2.
  pose proof (aggregate_columns_present _ _ _ H1) as P1.
  pose proof (aggregate_columns_present _ _ _ H2) as P2.
  assert (HC : forall c col1 col2, df1 !! c = Some col1 -> df2 !! c = Some col2 ->
            concat_frames df1 df2 !! c = Some (col1 ++ col2)%list).
  { intros c col1 col2 E1 E2. unfold concat_frames. rewrite lookup_union_with, E1, E2.
    reflexivity. }
  assert (P : Forall (fun k => is_Some (concat_frames df1 df2 !! k)) STAGE_COLUMNS).
  { apply Forall_forall. intros c Hc.
    apply Forall_forall with (x := c) in P1; [| exact Hc].
    apply Forall_forall with (x := c) in P2; [| exact Hc].
    destruct P1 as [col1 E1]. destruct P2 as [col2 E2]. rewrite (HC c col1 col2 E1 E2).
    eexists. reflexivity. }
  destruct (aggregate_columns_total _ _ P) as [m Hm]. exists m. split; [exact Hm |].
  apply Forall_forall. intros c Hc.
  apply Forall_forall with (x := c) in P1; [| exact Hc].
  apply Forall_forall with (x := c) in P2; [| exact Hc].
  destruct P1 as [col1 E1]. destruct P2 as [col2 E2].
  exists (column_total col1), (column_total col2). split; [| split].
  - exact (aggregate_columns_lookup _ _ _ c col1 H1 Hc E1).
  - exact (aggregate_columns_lookup _ _ _ c col2 H2 Hc E2).
  - rewrite (aggregate_columns_lookup _ _ _ c (col1 ++ col2)%list Hm Hc (HC c col1 col2 E1 E2)).
    rewrite column_total_app. reflexivity.
Qed.

Lemma aggregate_concat_additive_witness :
  exists m, aggregate_stages (concat_frames mock_stage_df mock_stage_df) = Some m /\
    Forall (fun c => exists a b, mock_stage_totals !! c = Some a /\
              mock_stage_totals !! c = Some b /\ m !! c = Some (a + b)) STAGE_COLUMNS.
Proof.
  exact (aggregate_concat_additive mock_stage_df mock_stage_df mock_stage_totals
    mock_stage_totals aggregate_stages_mock aggregate_stages_mock).
Defined.

(** The Account Discovery dropoff is the sum of its four sub-rows. *)
Theorem discovery_dropoff_sum_of_subrows (stage_totals : gmap string Z)
    (otp : list otp_row) (disc : list disc_row) (fi : list fi_row) (t : table) :
  build_report_table stage_totals otp disc fi = Some t ->
  int_at t 12 5 = int_at t 13 5 + int_at t 14 5 + int_at t 15 5 + int_at t 16 5.
Proof.
  intros H. destruct disc as [| r rs].
  - open_build H. reflexivity.
  - open_build H. cbn -[dict_sum].
    rewrite !dict_sum_insert by (rewrite ?lookup_insert_ne by discriminate; apply lookup_empty).
    unfold dict_sum, dict_get0. rewrite map_fold_empty. simplify_map_eq. lia.
Qed.

Lemma discovery_dropoff_sum_of_subrows_witness :
  int_at (default [] (build_report_table mock_stage_totals mock_otp_df mock_discovery_df
            mock_fi_status_df)) 12 5 = 350 + 600 + 400 + 150 + 200.
Proof.
  rewrite (discovery_dropoff_sum_of_subrows mock_stage_totals mock_otp_df mock_discovery_df
    mock_fi_status_df _); vm_compute; reflexivity.
Defined.

(** Every percentage cell is [_pct] of the count to its left, over the
    cohort (the Consent Initiated count); the two summary percentages are
    those of the Consent Request Review and FI Fetch successful counts. *)
Theorem pct_cells_consistent (stage_totals : gmap string Z)
    (otp : list otp_row) (disc : list disc_row) (fi : list fi_row) (t : table) :
  build_report_table stage_totals otp disc fi = Some t ->
  Forall (fun r => cell_at t r 3 = Some (_pct (int_at t r 2) (int_at t 6 2))) STAGE_ROWS /\
  Forall (fun r => cell_at t r 6 = Some (_pct (int_at t r 5) (int_at t 6 2)))
    [6; 7; 8; 9; 10; 11; 12; 13; 14; 15; 16; 17; 18; 19; 21; 22; 23]%nat /\
  cell_at t 1 1 = cell_at t 18 3 /\ cell_at t 2 1 = cell_at t 23 3.
Proof.
  intros H. open_build H. split; [| split; [| split]];
    try (repeat constructor); reflexivity.
Qed.

Lemma pct_cells_consistent_witness :
  cell_at (default [] (build_report_table mock_stage_totals mock_otp_df mock_discovery_df
            mock_fi_status_df)) 1 1 =
  cell_at (default [] (build_report_table mock_stage_totals mock_otp_df mock_discovery_df
            mock_fi_status_df)) 18 3.
Proof.
  refine (proj1 (proj2 (proj2 (pct_cells_consistent mock_stage_totals mock_otp_df
    mock_discovery_df mock_fi_status_df _ _)))). vm_compute. reflexivity.
Defined.





End Table.

(* ------------------------------------------------------------------ *)

Module Sheet.

(** The cell formats [write_funnel_excel] adds to the workbook. *)
Inductive xfmt := Gray | Green | Dark | Light | Border | NoteG | NoteW | StageFmt.

#[global] Instance xfmt_eq_dec : EqDecision xfmt.
Proof. solve_decision. Defined.

#[global] Instance Q_eq_dec : EqDecision Q.
Proof. solve_decision. Defined.

#[global] Instance cell_eq_dec : EqDecision cell.
Proof. solve_decision. Defined.

(** The calls made on the worksheet, in order. *)
Inductive sheet_op :=
| ToExcel (out : table)
| SetColumn (first last : nat) (width : Z)
| Write (r c : nat) (v : cell) (f : xfmt)
| MergeRange (r1 c1 r2 c2 : nat) (v : cell) (f : xfmt).

#[global] Instance sheet_op_eq_dec : EqDecision sheet_op.
Proof. solve_decision. Defined.

(** [table_df.shape[1]]: the frame built from a list of rows has as many
    columns as its longest row. *)
Definition shape1 (t : table) : nat := fold_right (fun row m => Nat.max (length row) m) 0%nat t.

(** [pd.concat([blank, table_df], ignore_index=True)] with [blank] one row
    of [""] per column. *)
Definition excel_frame (t : table) : table :=
  map (fun _ => CStr "") (seq 0 (shape1 t)) :: t.

Definition mem (r : nat) (l : list nat) : bool := existsb (Nat.eqb r) l.

Definition success_rows : list nat := [7; 8; 9; 13; 18; 19; 22; 23; 24]%nat.
Definition drop_main : list nat := [7; 8; 9; 13; 18; 19; 22; 23; 24]%nat.
Definition drop_sub : list nat := [10; 11; 12; 14; 15; 16; 17; 20; 21]%nat.

(** The format chosen for cell [(r, c)] by the styling loop. *)
Definition body_fmt (r c : nat) : xfmt :=
  let fmt := Border in
  let fmt := if (r =? 6)%nat || (c =? 0)%nat then Gray else fmt in
  let fmt := if mem c [1; 2; 3]%nat && mem r success_rows then Green else fmt in
  let fmt := if (c =? 4)%nat
             then (if mem r drop_main then Dark else if mem r drop_sub then Light else Border)
             else fmt in
  if mem c [5; 6]%nat && mem r drop_main then Dark else fmt.

(** One write per cell of [rows] x [cols], reading [out.iloc[r, c]]
    ([IndexError] out of range). No cell of a built table is NaN (strings,
    ints and finite floats), so the [write_blank] branch is not taken. *)
Definition write_cells (out : table) (rows cols : list nat) (fmt : nat -> nat -> xfmt)
    : option (list sheet_op) :=
  mapM (fun rc => v ← cell_at out rc.1 rc.2; Some (Write rc.1 rc.2 v (fmt rc.1 rc.2)))
    (list_prod rows cols).

(** [write_funnel_excel(table_df, filepath)]: the worksheet calls, or
    [None] if one of the [iloc] reads raises. The ranges ["A10:A13"],
    ["A14:A18"] and ["A20:A22"] are rows 9-12, 13-17 and 19-21 of column 0. *)
Definition write_funnel_excel (table_df : table) : option (list sheet_op) :=
  let out := excel_frame table_df in
  v13 ← cell_at out 1 3; v23 ← cell_at out 2 3;
  v52 ← cell_at out 5 2; v55 ← cell_at out 5 5;
  body ← write_cells out (seq 6 19) (seq 0 7) body_fmt;
  v10 ← cell_at out 1 0; v11 ← cell_at out 1 1;
  summary ← write_cells out (seq 2 2) (seq 0 2) (fun _ _ => Border);
  m9 ← cell_at out 9 0; m13 ← cell_at out 13 0; m19 ← cell_at out 19 0;
  Some ([ToExcel out;
         SetColumn 0 0 45; SetColumn 1 1 45; SetColumn 2 2 14; SetColumn 3 3 15;
         SetColumn 4 4 55; SetColumn 5 5 14; SetColumn 6 6 16;
         MergeRange 1 3 1 4 v13 NoteG; MergeRange 2 3 2 4 v23 NoteW;
         MergeRange 5 2 5 3 v52 Gray; MergeRange 5 5 5 6 v55 Gray]
        ++ body ++ [Write 1 0 v10 Gray; Write 1 1 v11 Gray] ++ summary ++
        [MergeRange 9 0 12 0 m9 StageFmt; MergeRange 13 0 17 0 m13 StageFmt;
         MergeRange 19 0 21 0 m19 StageFmt])%list.

(** The format cell [(r, c)] ends with: the last write or merge covering it. *)
Definition final_fmt (ops : list sheet_op) (r c : nat) : option xfmt :=
  fold_left (fun acc op =>
    match op with
    | Write r' c' _ f => if (r' =? r)%nat && (c' =? c)%nat then Some f else acc
    | MergeRange r1 c1 r2 c2 _ f =>
        if (r1 <=? r)%nat && (r <=? r2)%nat && (c1 <=? c)%nat && (c <=? c2)%nat
        then Some f else acc
    | _ => acc
    end) ops None.

(** A sheet row holds a stage (a non-empty label in column A). *)
Definition stage_label (v : option cell) : bool :=
  match v with Some (CStr s) => negb (String.eqb s "") | _ => false end.

(** The column-A merges, as (first row, last row). *)
Definition stage_merges : list (nat * nat) := [(9, 12); (13, 17); (19, 21)]%nat.

Lemma forall_range (P : nat -> bool) (a n : nat) :
  forallb P (seq a n) = true -> forall r, (a <= r < a + n)%nat -> P r = true.
Proof.
  intros H r Hr. rewrite forallb_forall in H. apply H. apply in_seq. lia.
Qed.

(** The styles expected of the header row, the stage table rows and
    column A, checked cell by cell. *)
Definition header_style (c : nat) : xfmt := if (c =? 4)%nat then Border else Gray.

Definition row_style (t : table) (r c : nat) : xfmt :=
  if stage_label (cell_at (excel_frame t) r 0)
  then (if (c <=? 3)%nat then Green else Dark)
  else (if (c =? 4)%nat then Light else Border).

Definition in_merge (r : nat) : bool :=
  existsb (fun '(r1, r2) => (r1 <=? r)%nat && (r <=? r2)%nat) stage_merges.

Definition col_a_style (r : nat) : xfmt := if in_merge r then StageFmt else Gray.

Definition styles_ok (t : table) (ops : list sheet_op) : bool :=
  forallb (fun c => bool_decide (final_fmt ops 6 c = Some (header_style c))) (seq 0 7) &&
  forallb (fun r => forallb (fun c => bool_decide (final_fmt ops r c = Some (row_style t r c)))
                      (seq 1 6)) (seq 7 18) &&
  forallb (fun r => bool_decide (final_fmt ops r 0 = Some (col_a_style r))) (seq 7 18).

Lemma styles_ok_sound (t : table) (ops : list sheet_op) :
  styles_ok t ops = true ->
  (forall c, (c < 7)%nat -> final_fmt ops 6 c = Some (header_style c)) /\
  (forall r c, (7 <= r <= 24)%nat -> (1 <= c <= 6)%nat -> final_fmt ops r c = Some (row_style t r c)) /\
  (forall r, (7 <= r <= 24)%nat -> final_fmt ops r 0 = Some (col_a_style r)).
Proof.
  unfold styles_ok. intros H. apply andb_true_iff in H as [H H3]. apply andb_true_iff in H as [H1 H2].
  split; [| split].
  - intros c Hc. apply (bool_decide_eq_true_1 _). exact (forall_range _ 0 7 H1 c ltac:(lia)).
  - intros r c Hr Hc. pose proof (forall_range _ 7 18 H2 r ltac:(lia)) as Hrow. cbv beta in Hrow.
    apply (bool_decide_eq_true_1 _). exact (forall_range _ 1 6 Hrow c ltac:(lia)).
  - intros r Hr. apply (bool_decide_eq_true_1 _). exact (forall_range _ 7 18 H3 r ltac:(lia)).
Qed.

(** After the write, under the blank first row: the header row is gray but
    for its Dropoff Cause cell; a stage row is green on its counts and
    percentage and dark on its dropoff; a sub-row is light on its cause
    only; column A is gray, the merged stage cells in the stage format. *)
Theorem funnel_sheet_styles (stage_totals : gmap string Z)
    (otp : list otp_row) (disc : list disc_row) (fi : list fi_row) (t : table) :
  build_report_table stage_totals otp disc fi = Some t ->
  exists ops, write_funnel_excel t = Some ops /\
    (forall c, (c < 7)%nat -> final_fmt ops 6 c = Some (header_style c)) /\
    (forall r c, (7 <= r <= 24)%nat -> (1 <= c <= 6)%nat -> final_fmt ops r c = Some (row_style t r c)) /\
    (forall r, (7 <= r <= 24)%nat -> final_fmt ops r 0 = Some (col_a_style r)).
Proof.
  intros H. open_build H. eexists. split; [reflexivity |].
  apply styles_ok_sound. vm_compute. reflexivity.
Qed.

Lemma funnel_sheet_styles_witness :
  exists ops, write_funnel_excel (default [] (build_report_table mock_stage_totals mock_otp_df
                mock_discovery_df mock_fi_status_df)) = Some ops /\
    (forall c, (c < 7)%nat -> final_fmt ops 6 c = Some (header_style c)) /\
    (forall r c, (7 <= r <= 24)%nat -> (1 <= c <= 6)%nat ->
       final_fmt ops r c = Some (row_style (default [] (build_report_table mock_stage_totals
         mock_otp_df mock_discovery_df mock_fi_status_df)) r c)) /\
    (forall r, (7 <= r <= 24)%nat -> final_fmt ops r 0 = Some (col_a_style r)).
Proof.
  refine (funnel_sheet_styles mock_stage_totals mock_otp_df mock_discovery_df mock_fi_status_df
    _ _). vm_compute. reflexivity.
Defined.

(** A row strictly inside one of the column-A merges. *)
Definition in_sub_merge (r : nat) : bool :=
  existsb (fun '(r1, r2) => (r1 <? r)%nat && (r <=? r2)%nat) stage_merges.

Definition merges_ok (t : table) (ops : list sheet_op) : bool :=
  forallb (fun r => Bool.eqb (stage_label (cell_at (excel_frame t) r 0)) (negb (in_sub_merge r)))
    (seq 7 18) &&
  forallb (fun '(r1, r2) =>
    stage_label (cell_at (excel_frame t) r1 0) &&
    match cell_at (excel_frame t) r1 0 with
    | Some v => bool_decide (MergeRange r1 0 r2 0 v StageFmt ∈ ops)
    | None => false
    end) stage_merges.

Lemma merges_ok_sound (t : table) (ops : list sheet_op) :
  merges_ok t ops = true ->
  (forall r, (7 <= r <= 24)%nat ->
     stage_label (cell_at (excel_frame t) r 0) = negb (in_sub_merge r)) /\
  Forall (fun '(r1, r2) => exists v, cell_at (excel_frame t) r1 0 = Some v /\
            stage_label (Some v) = true /\ MergeRange r1 0 r2 0 v StageFmt ∈ ops) stage_merges.
Proof.
  unfold merges_ok. intros H. apply andb_true_iff in H as [H1 H2]. split.
  - intros r Hr. apply Bool.eqb_prop. exact (forall_range _ 7 18 H1 r ltac:(lia)).
  - apply Forall_forall. intros [r1 r2] Hin. rewrite forallb_forall in H2.
    specialize (H2 _ (proj1 (list_elem_of_In _ _) Hin)). cbv beta iota in H2.
    apply andb_true_iff in H2 as [Hl Hm].
    destruct (cell_at (excel_frame t) r1 0) as [v|]; [| discriminate].
    exists v. split; [reflexivity | split; [exact Hl | exact (bool_decide_eq_true_1 _ Hm)]].
Qed.

(** The merged column-A ranges group each stage with its sub-rows: a row of
    the stage table has an empty stage label exactly when it lies inside a
    merge below the merge's first row, and each merge shows the stage label
    of its first row. *)
Theorem funnel_sheet_merges (stage_totals : gmap string Z)
    (otp : list otp_row) (disc : list disc_row) (fi : list fi_row) (t : table) :
  build_report_table stage_totals otp disc fi = Some t ->
  exists ops, write_funnel_excel t = Some ops /\
    (forall r, (7 <= r <= 24)%nat ->
       stage_label (cell_at (excel_frame t) r 0) = negb (in_sub_merge r)) /\
    Forall (fun '(r1, r2) => exists v, cell_at (excel_frame t) r1 0 = Some v /\
              stage_label (Some v) = true /\ MergeRange r1 0 r2 0 v StageFmt ∈ ops) stage_merges.
Proof.
  intros H. open_build H. eexists. split; [reflexivity |].
  apply merges_ok_sound. vm_compute. reflexivity.
Qed.

Lemma funnel_sheet_merges_witness :
  exists ops, write_funnel_excel (default [] (build_report_table mock_stage_totals [] []
                [])) = Some ops /\
    (forall r, (7 <= r <= 24)%nat ->
       stage_label (cell_at (excel_frame (default [] (build_report_table mock_stage_totals
         [] [] []))) r 0) = negb (in_sub_merge r)) /\
    Forall (fun '(r1, r2) => exists v, cell_at (excel_frame (default []
              (build_report_table mock_stage_totals [] [] []))) r1 0 = Some v /\
              stage_label (Some v) = true /\ MergeRange r1 0 r2 0 v StageFmt ∈ ops) stage_merges.
Proof.
  refine (funnel_sheet_merges mock_stage_totals [] [] [] _ _). vm_compute. reflexivity.
Defined.

End Sheet.

(* ------------------------------------------------------------------ *)

Module Mail.

(** [s.replace(old, new)] for a non-empty [old]: scanning left to right,
    each occurrence of [old] is replaced and skipped ([skip] counts the
    characters of the occurrence still to pass over). *)
Fixpoint replace_go (old new : string) (skip : nat) (s : string) : string :=
  match s with
  | EmptyString => EmptyString
  | String ch rest =>
      match skip with
      | S k => replace_go old new k rest
      | O => if String.prefix old s
             then new ++ replace_go old new (String.length old - 1) rest
             else String ch (replace_go old new 0 rest)
      end
  end.

Definition str_replace (old new s : string) : string := replace_go old new 0 s.

Definition newline : string := String "010"%char EmptyString.

(** [body_html.replace("<br>", "\n").replace("<b>", "").replace("</b>", "")]. *)
Definition plain_of_html (body_html : string) : string :=
  str_replace "</b>" "" (str_replace "<b>" "" (str_replace "<br>" newline body_html)).

(** The mail body of [run] for an entity and a date spec. *)
Definition run_body (entity_id date_spec : string) : string :=
  "Dear team,<br>Please find the user funnel for " ++ entity_id ++ " " ++ date_spec ++
  ".<br><br>Thanks & Regards,<br>Your Team".

(** [os.path.basename(path)]: what follows the last ["/"]. *)
Fixpoint basename_go (s acc : string) : string :=
  match s with
  | EmptyString => acc
  | String ch rest => if decide (ch = "/"%char) then basename_go rest "" else basename_go rest (acc ++ String ch "")
  end.

Definition basename (path : string) : string := basename_go path "".

(** The SMTP settings of [load_config]. *)
Record smtp_config := {
  smtp_from : string;
  smtp_host : string;
  smtp_port : Z;
  smtp_user : string;
  smtp_password : string }.

Inductive mime_part :=
| TextPart (subtype body : string)
| Attachment (filename payload : string).

Record message := {
  msg_from : string;
  msg_to : string;
  msg_cc : option string;
  msg_subject : string;
  msg_parts : list mime_part }.

Section Send.

(** The file system and the SMTP server: [isfile] is [os.path.isfile];
    [read_file] the bytes [open(path, "rb").read()] returns, [None] when it
    raises; [smtp_send] whether [SMTP(host, port)], [starttls], [login] and
    [send_message] all return ([false]: one of them raised). *)
Variable isfile : string -> bool.
Variable read_file : string -> option string.
Variable smtp_send : smtp_config -> message -> bool.

(** The message built in the [try] block, [None] if reading an attachment
    raises. *)
Definition build_message (cfg : smtp_config) (to_addrs : list string) (subject body_html : string)
    (attachments cc_addrs : list string) : option message :=
  parts ← mapM (fun path => payload ← read_file path; Some (Attachment (basename path) payload))
            (filter (fun p => isfile p = true) attachments);
  Some {| msg_from := if String.eqb (smtp_from cfg) "" then smtp_user cfg else smtp_from cfg;
          msg_to := String.concat ", " to_addrs;
          msg_cc := match cc_addrs with [] => None | _ => Some (String.concat ", " cc_addrs) end;
          msg_subject := subject;
          msg_parts := TextPart "plain" (plain_of_html body_html) :: TextPart "html" body_html
                       :: parts |}.

(** [send_report_mail(to_addrs, subject, body_html, attachments, cc_addrs,
    smtp_config)]; a missing [smtp_config] is [{}]. *)
Definition send_report_mail (to_addrs : list string) (subject body_html : string)
    (attachments cc_addrs : list string) (smtp_cfg : option smtp_config) : bool :=
  match smtp_cfg with
  | None => false
  | Some cfg =>
      if String.eqb (smtp_user cfg) "" || String.eqb (smtp_password cfg) "" then false
      else match build_message cfg to_addrs subject body_html attachments cc_addrs with
           | Some msg => smtp_send cfg msg
           | None => false
           end
  end.

End Send.

(** No ["<"] in the string. *)
Fixpoint no_lt (s : string) : bool :=
  match s with
  | EmptyString => true
  | String ch rest => negb (bool_decide (ch = "<"%char)) && no_lt rest
  end.

Lemma replace_skip (old new u t : string) :
  replace_go old new (String.length u) (u ++ t) = replace_go old new 0 t.
Proof. induction u as [| ch u IH]; [reflexivity | exact IH]. Qed.

Lemma replace_clean (o' new s t : string) :
  no_lt s = true ->
  replace_go (String "<" o') new 0 (s ++ t) = s ++ replace_go (String "<" o') new 0 t.
Proof.
  induction s as [| ch s IH]; intros H; [reflexivity |].
  cbn in H. apply andb_true_iff in H as [Hch Hs].
  change (String ch s ++ t) with (String ch (s ++ t)).
  change (String ch s ++ replace_go (String "<" o') new 0 t)
    with (String ch (s ++ replace_go (String "<" o') new 0 t)).
  cbn [replace_go String.prefix]. destruct (ascii_dec "<" ch) as [E | E].
  - subst ch. discriminate Hch.
  - rewrite IH by exact Hs. reflexivity.
Qed.

Lemma prefix_app (u t : string) : String.prefix u (u ++ t) = true.
Proof.
  induction u as [| ch u IH]; [destruct t; reflexivity |].
  change (String ch u ++ t) with (String ch (u ++ t)). cbn [String.prefix].
  destruct (ascii_dec ch ch); [exact IH | contradiction].
Qed.

Lemma replace_tag (old new t : string) :
  old <> EmptyString ->
  replace_go old new 0 (old ++ t) = new ++ replace_go old new 0 t.
Proof.
  intros Hne. destruct old as [| ch o]; [contradiction |].
  change (String ch o ++ t) with (String ch (o ++ t)). cbn [replace_go].
  replace (String.prefix (String ch o) (String ch (o ++ t))) with true.
  - cbn [String.length]. replace (S (String.length o) - 1)%nat with (String.length o) by lia.
    rewrite replace_skip. reflexivity.
  - symmetry. exact (prefix_app (String ch o) t).
Qed.

Lemma no_lt_app (s t : string) : no_lt (s ++ t) = no_lt s && no_lt t.
Proof.
  induction s as [| ch s IH]; [reflexivity |].
  change (String ch s ++ t) with (String ch (s ++ t)). cbn [no_lt]. rewrite IH. apply andb_assoc.
Qed.

Lemma str_app_empty (s : string) : s ++ "" = s.
Proof. induction s as [| ch s IH]; [reflexivity |]. change (String ch (s ++ "") = String ch s). rewrite IH. reflexivity. Qed.

Lemma replace_none (o' new s : string) :
  no_lt s = true -> replace_go (String "<" o') new 0 s = s.
Proof.
  intros H. rewrite <- (str_app_empty s) at 1. rewrite replace_clean by exact H.
  apply str_app_empty.
Qed.

(** The plain-text part of the mail [run] sends is its HTML body with each
    [<br>] turned into a newline, for entity ids and date specs without a
    ["<"]. *)
Theorem run_mail_plain_text (entity_id date_spec : string) :
  no_lt entity_id = true -> no_lt date_spec = true ->
  plain_of_html (run_body entity_id date_spec) =
  "Dear team," ++ newline ++ "Please find the user funnel for " ++ entity_id ++ " " ++
  date_spec ++ "." ++ newline ++ newline ++ "Thanks & Regards," ++ newline ++ "Your Team".
Proof.
  intros He Hd. unfold plain_of_html, str_replace.
  change (run_body entity_id date_spec) with
    ("Dear team," ++ "<br>" ++ "Please find the user funnel for " ++ entity_id ++ " " ++
     date_spec ++ "." ++ "<br>" ++ "<br>" ++ "Thanks & Regards," ++ "<br>" ++ "Your Team").
  repeat first [ rewrite replace_tag by discriminate
               | rewrite replace_clean by (assumption || reflexivity)
               | rewrite replace_none by (assumption || reflexivity) ].
  reflexivity.
Qed.

Lemma run_mail_plain_text_witness :
  plain_of_html (run_body "fiu-1@aa" "01_03_2024 -> 05_03_2024") =
  "Dear team," ++ newline ++ "Please find the user funnel for " ++ "fiu-1@aa" ++ " " ++
  "01_03_2024 -> 05_03_2024" ++ "." ++ newline ++ newline ++ "Thanks & Regards," ++ newline ++
  "Your Team".
Proof. apply run_mail_plain_text; reflexivity. Defined.

Definition has_credentials (smtp_cfg : option smtp_config) : bool :=
  match smtp_cfg with
  | None => false
  | Some cfg => negb (String.eqb (smtp_user cfg) "" || String.eqb (smtp_password cfg) "")
  end.

Lemma send_without_credentials isfile read_file smtp_send to_addrs subject body_html attachments
    cc_addrs smtp_cfg :
  has_credentials smtp_cfg = false ->
  send_report_mail isfile read_file smtp_send to_addrs subject body_html attachments cc_addrs smtp_cfg
  = false.
Proof.
  destruct smtp_cfg as [cfg |]; [| reflexivity]. cbn.
  destruct (String.eqb (smtp_user cfg) "" || String.eqb (smtp_password cfg) ""); [reflexivity | discriminate].
Qed.

Lemma mapM_attach_none (read_file : string -> option string) (ps : list string) :
  (exists p, In p ps /\ read_file p = None) ->
  mapM (fun path => payload ← read_file path; Some (Attachment (basename path) payload)) ps = None.
Proof.
  induction ps as [| q ps IH]; intros [p [Hin Hr]]; [destruct Hin |].
  cbn. destruct Hin as [-> | Hin].
  - rewrite Hr. reflexivity.
  - destruct (read_file q); [| reflexivity]. cbn.
    rewrite IH by (exists p; auto). reflexivity.
Qed.

Lemma mapM_attach_some (read_file : string -> option string) (ps : list string) :
  (forall p, In p ps -> exists d, read_file p = Some d) ->
  exists parts, mapM (fun path => payload ← read_file path; Some (Attachment (basename path) payload)) ps
                = Some parts /\
     map (fun pt => match pt with Attachment f _ => Some f | TextPart _ _ => None end) parts
     = map (fun p => Some (basename p)) ps.
Proof.
  induction ps as [| q ps IH]; intros H; [exists []; split; reflexivity |].
  destruct (H q (or_introl eq_refl)) as [d Hd].
  destruct IH as [parts [Hm Hf]]; [intros p Hp; apply H; right; exact Hp |].
  exists (Attachment (basename q) d :: parts). cbn. rewrite Hd. cbn. rewrite Hm. cbn.
  split; [reflexivity | rewrite Hf; reflexivity].
Qed.

(** [send_report_mail] returns [False] without contacting the server when
    the SMTP settings are missing or the user or the password is empty. *)
Theorem send_skipped_without_credentials isfile read_file smtp_send to_addrs subject body_html
    attachments cc_addrs (smtp_cfg : option smtp_config) :
  (smtp_cfg = None \/ exists cfg, smtp_cfg = Some cfg /\ (smtp_user cfg = "" \/ smtp_password cfg = "")) ->
  send_report_mail isfile read_file smtp_send to_addrs subject body_html attachments cc_addrs smtp_cfg
  = false.
Proof.
  intros H. apply send_without_credentials.
  destruct H as [-> | [cfg [-> [Hu | Hp]]]]; cbn; [reflexivity | rewrite Hu | rewrite Hp];
    [reflexivity | rewrite orb_true_r; reflexivity].
Qed.

Lemma send_skipped_without_credentials_witness :
  send_report_mail (fun _ => true) (fun _ => Some "x") (fun _ _ => true) ["to@x.com"] "s" "b" ["a.xlsx"] []
    (Some {| smtp_from := ""; smtp_host := "smtp.example.com"; smtp_port := 587;
             smtp_user := "u"; smtp_password := "" |}) = false.
Proof.
  apply send_skipped_without_credentials. right. eexists. split; [reflexivity | right; reflexivity].
Defined.

(** With credentials, an attachment that exists on disk but cannot be read
    makes [send_report_mail] return [False], whatever the server would do. *)
Theorem send_fails_on_unreadable_attachment isfile read_file smtp_send to_addrs subject body_html
    attachments cc_addrs (cfg : smtp_config) (p : string) :
  has_credentials (Some cfg) = true -> In p attachments -> isfile p = true -> read_file p = None ->
  send_report_mail isfile read_file smtp_send to_addrs subject body_html attachments cc_addrs (Some cfg)
  = false.
Proof.
  intros Hc Hin Hf Hr. cbn in Hc |- *.
  destruct (String.eqb (smtp_user cfg) "" || String.eqb (smtp_password cfg) ""); [discriminate |].
  unfold build_message. rewrite mapM_attach_none; [reflexivity |].
  exists p. split; [apply list_elem_of_In, list_elem_of_filter; split; [exact Hf | apply list_elem_of_In, Hin] | exact Hr].
Qed.

Lemma send_fails_on_unreadable_attachment_witness :
  send_report_mail (fun _ => true) (fun _ => None) (fun _ _ => true) ["to@x.com"] "s" "b" ["a.xlsx"] []
    (Some {| smtp_from := ""; smtp_host := "smtp.example.com"; smtp_port := 587;
             smtp_user := "u"; smtp_password := "pw" |}) = false.
Proof.
  refine (send_fails_on_unreadable_attachment _ _ _ _ _ _ _ _ _ "a.xlsx" _ _ _ _);
    [reflexivity | left; reflexivity | reflexivity | reflexivity].
Defined.

(** With credentials and readable attachments, [send_report_mail] returns
    what the server transaction returns on a message whose sender is
    [from] (the user when [from] is empty), whose [To] is the comma-joined
    list, with a [Cc] header only for a non-empty CC list, and whose parts
    are the plain text, the HTML body and the files that exist on disk, in
    order, under their base names. *)
Theorem send_message_contents isfile read_file smtp_send to_addrs subject body_html
    attachments cc_addrs (cfg : smtp_config) :
  has_credentials (Some cfg) = true ->
  (forall p, In p attachments -> isfile p = true -> exists d, read_file p = Some d) ->
  exists msg,
    send_report_mail isfile read_file smtp_send to_addrs subject body_html attachments cc_addrs (Some cfg)
    = smtp_send cfg msg /\
    msg_from msg = (if String.eqb (smtp_from cfg) "" then smtp_user cfg else smtp_from cfg) /\
    msg_to msg = String.concat ", " to_addrs /\
    (msg_cc msg = None <-> cc_addrs = []) /\
    msg_subject msg = subject /\
    map (fun pt => match pt with Attachment f _ => Some f | TextPart _ _ => None end) (msg_parts msg)
    = None :: None :: map (fun p => Some (basename p)) (filter (fun p => isfile p = true) attachments) /\
    firstn 2 (msg_parts msg) = [TextPart "plain" (plain_of_html body_html); TextPart "html" body_html].
Proof.
  intros Hc Hr. cbn in Hc |- *.
  destruct (String.eqb (smtp_user cfg) "" || String.eqb (smtp_password cfg) ""); [discriminate |].
  destruct (mapM_attach_some read_file (filter (fun p => isfile p = true) attachments)) as [parts [Hm Hf]].
  { intros p Hp. apply list_elem_of_In, list_elem_of_filter in Hp as [Hp1 Hp2].
    apply Hr; [apply list_elem_of_In, Hp2 | exact Hp1]. }
  unfold build_message. rewrite Hm. cbn.
  eexists. split; [reflexivity |]. cbn.
  split; [reflexivity |]. split; [reflexivity |].
  split; [destruct cc_addrs; split; (reflexivity || discriminate) |].
  split; [reflexivity |]. split; [rewrite Hf; reflexivity | reflexivity].
Qed.

Lemma send_message_contents_witness :
  exists msg,
    send_report_mail (fun p => String.eqb p "a.xlsx") (fun _ => Some "x") (fun _ _ => true)
      ["to@x.com"] "s" "b" ["out/a.xlsx"; "a.xlsx"] []
      (Some {| smtp_from := ""; smtp_host := "h"; smtp_port := 587; smtp_user := "u"; smtp_password := "pw" |})
    = true /\ msg_from msg = "u".
Proof.
  destruct (send_message_contents (fun p => String.eqb p "a.xlsx") (fun _ => Some "x") (fun _ _ => true)
      ["to@x.com"] "s" "b" ["out/a.xlsx"; "a.xlsx"] []
      {| smtp_from := ""; smtp_host := "h"; smtp_port := 587; smtp_user := "u"; smtp_password := "pw" |}
      eq_refl (fun p _ _ => ex_intro _ "x" eq_refl)) as [msg [H1 [H2 _]]].
  exists msg. split; [exact H1 | exact H2].
Defined.

End Mail.

(* ------------------------------------------------------------------ *)

Module Ranges.

(** The range branches of [fetch_otp_totals], [fetch_discovery_totals] and
    [fetch_fi_status_counts]: one frame per date of the range, combined
    with [pd.concat]. A frame is the list of its rows; a missing frame
    (the request failed) is the empty list. *)






(** [combined.groupby("fetch_status")["Count"].sum().reset_index()]: one
    row per status, in sorted order, with the status's total count. *)
Definition groupby_sum (rows : list fi_row) : list fi_row :=
  map (fun s => {| fetch_status := s; Count := count_status rows s |})
    (merge_sort String.le (remove_dups (map fetch_status rows))).

(** Lines 186-191. *)
Definition fi_range_combine (frames : list (list fi_row)) : list fi_row :=
  match frames with
  | [] => []
  | _ =>
      match concat frames with
      | [] => []
      | rows => groupby_sum rows
      end
  end.

(** Two-day samples of per-date frames. *)
Definition sample_fi_frames : list (list fi_row) :=
  [ [ {| fetch_status := "Success"; Count := 30 |}; {| fetch_status := "Failed"; Count := 4 |} ];
    [ {| fetch_status := "Not Attempted"; Count := 7 |}; {| fetch_status := "Success"; Count := 20 |} ] ].



Lemma count_status_app (l1 l2 : list fi_row) (s : string) :
  count_status (l1 ++ l2) s = count_status l1 s + count_status l2 s.
Proof.
  unfold count_status. rewrite filter_app, map_app, fold_right_app.
  rewrite Table.fold_add_acc. lia.
Qed.

Lemma count_status_concat (frames : list (list fi_row)) (s : string) :
  count_status (concat frames) s = fold_right Z.add 0 (map (fun f => count_status f s) frames).
Proof.
  induction frames as [| f fs IH]; [reflexivity |].
  cbn [concat map fold_right]. rewrite count_status_app, IH. reflexivity.
Qed.

Lemma count_status_absent (rows : list fi_row) (s : string) :
  s ∉ map fetch_status rows -> count_status rows s = 0.
Proof.
  induction rows as [| r rs IH]; intros Hn; [reflexivity |].
  cbn in Hn. apply not_elem_of_cons in Hn as [Hr Hrs].
  unfold count_status. rewrite filter_cons. rewrite decide_False by (intros E; apply Hr; symmetry; exact E).
  apply IH, Hrs.
Qed.

Lemma count_status_keys (rows : list fi_row) (keys : list string) (s : string) :
  NoDup keys ->
  count_status (map (fun k => {| fetch_status := k; Count := count_status rows k |}) keys) s =
  if bool_decide (s ∈ keys) then count_status rows s else 0.
Proof.
  induction keys as [| k ks IH]; intros Hnd; [reflexivity |].
  apply NoDup_cons in Hnd as [Hk Hks].
  unfold count_status at 1. cbn [map]. rewrite filter_cons. cbn [fetch_status Count].
  destruct (decide (k = s)) as [<- | Hne].
  - cbn [map fold_right Count]. fold (count_status (map (fun k0 => {| fetch_status := k0; Count := count_status rows k0 |}) ks) k).
    rewrite IH by exact Hks.
    rewrite (bool_decide_true (k ∈ k :: ks)) by (apply elem_of_cons; left; reflexivity).
    rewrite bool_decide_false by exact Hk. lia.
  - fold (count_status (map (fun k0 => {| fetch_status := k0; Count := count_status rows k0 |}) ks) s).
    rewrite IH by exact Hks.
    destruct (bool_decide (s ∈ ks)) eqn:E1; destruct (bool_decide (s ∈ k :: ks)) eqn:E2; try reflexivity.
    + apply bool_decide_eq_true_1 in E1. apply bool_decide_eq_false_1 in E2.
      exfalso. apply E2. right. exact E1.
    + apply bool_decide_eq_false_1 in E1. apply bool_decide_eq_true_1 in E2.
      apply elem_of_cons in E2 as [E2 | E2]; [congruence | contradiction].
Qed.

Lemma groupby_keys (rows : list fi_row) :
  map fetch_status (groupby_sum rows) = merge_sort String.le (remove_dups (map fetch_status rows)).
Proof. unfold groupby_sum. rewrite map_map. apply map_id. Qed.

Lemma groupby_keys_nodup (rows : list fi_row) :
  NoDup (merge_sort String.le (remove_dups (map fetch_status rows))).
Proof.
  rewrite merge_sort_Permutation. apply NoDup_remove_dups.
Qed.

Lemma groupby_count (rows : list fi_row) (s : string) :
  count_status (groupby_sum rows) s = count_status rows s.
Proof.
  unfold groupby_sum. rewrite count_status_keys by apply groupby_keys_nodup.
  destruct (bool_decide _) eqn:E; [reflexivity |].
  apply bool_decide_eq_false_1 in E. symmetry. apply count_status_absent.
  intros Hin. apply E. rewrite merge_sort_Permutation. apply elem_of_remove_dups, Hin.
Qed.

Lemma fi_range_count (frames : list (list fi_row)) (s : string) :
  count_status (fi_range_combine frames) s =
  fold_right Z.add 0 (map (fun f => count_status f s) frames).
Proof.
  rewrite <- count_status_concat. unfold fi_range_combine.
  destruct frames as [| f fs]; [reflexivity |].
  destruct (concat (f :: fs)) as [| r rs]; [reflexivity |]. apply groupby_count.
Qed.

(** The FI status frame of a date range has one row per status, sorted by
    status, and the count of each status is the sum of its counts over the
    per-date frames. *)
Theorem fi_range_grouped (frames : list (list fi_row)) :
  let out := fi_range_combine frames in
  NoDup (map fetch_status out) /\ Sorted String.le (map fetch_status out) /\
  forall s, count_status out s = fold_right Z.add 0 (map (fun f => count_status f s) frames).
Proof.
  cbn zeta. split; [| split; [| apply fi_range_count]];
    unfold fi_range_combine; destruct frames as [| f fs]; try constructor;
    destruct (concat (f :: fs)) as [| r rs]; try constructor;
    rewrite groupby_keys; [apply groupby_keys_nodup | apply Sorted_merge_sort; apply _].
Qed.

Lemma fi_req_count (l : list fi_row) :
  match l with [] => 0 | _ :: _ => count_status l "Success" + count_status l "Failed" end
  = count_status l "Success" + count_status l "Failed".
Proof. destruct l; reflexivity. Qed.



(** For a date range, the FI Request successful count of the table is the
    sum over the per-date frames of their Success and Failed counts. *)
Theorem fi_range_request_count (stage_totals : gmap string Z) (otp : list otp_row)
    (disc : list disc_row) (frames : list (list fi_row)) (t : table) :
  build_report_table stage_totals otp disc (fi_range_combine frames) = Some t ->
  int_at t 22 2 = fold_right Z.add 0
    (map (fun f => count_status f "Success" + count_status f "Failed") frames).
Proof.
  intros H. open_build H. unfold int_at, cell_at. cbn -[fi_range_combine count_status].
  rewrite fi_req_count, !fi_range_count.
  induction frames as [| f fs IH]; [reflexivity |]. cbn [map fold_right]. lia.
Qed.

Lemma fi_range_request_count_witness :
  int_at (default [] (build_report_table mock_stage_totals mock_otp_df mock_discovery_df
    (fi_range_combine
       sample_fi_frames)))
    22 2 = 54.
Proof.
  rewrite (fi_range_request_count mock_stage_totals mock_otp_df mock_discovery_df sample_fi_frames _);
    vm_compute; reflexivity.
Defined.





End Ranges.

(* ------------------------------------------------------------------ *)

Module Pipeline.

(** No occurrence of the character [c]. *)
Fixpoint no_char (c : ascii) (s : string) : bool :=
  match s with
  | EmptyString => true
  | String ch rest => negb (bool_decide (ch = c)) && no_char c rest
  end.

(** [path.endswith("/")]. *)
Fixpoint ends_with_slash (s : string) : bool :=
  match s with
  | EmptyString => false
  | String ch EmptyString => bool_decide (ch = "/"%char)
  | String _ rest => ends_with_slash rest
  end.

(** [os.path.join(a, b)] (posixpath): an absolute [b] replaces [a];
    otherwise [b] is appended, after a ["/"] unless [a] is empty or ends
    with one. *)
Definition path_join (a b : string) : string :=
  if String.prefix "/" b then b
  else if String.eqb a "" || ends_with_slash a then a ++ b else a ++ "/" ++ b.

(** [out_path] of [run] (lines 213-215). *)
Definition report_path (out_dir entity_id date_spec : string) : string :=
  let safe_id := Mail.str_replace "@" "-" entity_id in
  path_join out_dir (safe_id ++ "-" ++ Mail.str_replace " -> " "-" date_spec ++ ".xlsx").

Lemma str_app_assoc (s t u : string) : s ++ (t ++ u) = (s ++ t) ++ u.
Proof.
  induction s as [| ch s IH]; [reflexivity |].
  change (String ch (s ++ (t ++ u)) = String ch ((s ++ t) ++ u)). rewrite IH. reflexivity.
Qed.

Lemma no_char_app (c : ascii) (s t : string) : no_char c (s ++ t) = no_char c s && no_char c t.
Proof.
  induction s as [| ch s IH]; [reflexivity |].
  change (String ch s ++ t) with (String ch (s ++ t)). cbn [no_char]. rewrite IH. apply andb_assoc.
Qed.

Lemma no_char_replace (c : ascii) (old new s : string) (k : nat) :
  no_char c s = true -> no_char c new = true -> no_char c (Mail.replace_go old new k s) = true.
Proof.
  revert k. induction s as [| ch s IH]; intros k Hs Hn; [reflexivity |].
  cbn [no_char] in Hs. apply andb_true_iff in Hs as [Hch Hs].
  destruct k as [| k]; cbn [Mail.replace_go]; [| apply IH; assumption].
  destruct (String.prefix old (String ch s)).
  - rewrite no_char_app, Hn. apply IH; assumption.
  - cbn [no_char]. rewrite Hch. apply IH; assumption.
Qed.

Lemma replace_removes_char (c : ascii) (new s : string) :
  no_char c new = true -> no_char c (Mail.replace_go (String c "") new 0 s) = true.
Proof.
  intros Hn. induction s as [| ch s IH]; [reflexivity |].
  cbn [Mail.replace_go String.prefix]. destruct (ascii_dec c ch) as [<- | Hne]; cbv beta iota.
  - replace (String.prefix "" s) with true by (destruct s; reflexivity). cbn [String.length Nat.sub]. rewrite no_char_app, Hn. exact IH.
  - cbn [no_char]. rewrite IH, andb_true_r. apply negb_true_iff, bool_decide_false.
    intros E. apply Hne. symmetry. exact E.
Qed.

Lemma basename_go_plain (t acc : string) :
  no_char "/" t = true -> Mail.basename_go t acc = acc ++ t.
Proof.
  revert acc. induction t as [| ch t IH]; intros acc Ht; [symmetry; apply Mail.str_app_empty |].
  cbn [no_char] in Ht. apply andb_true_iff in Ht as [Hch Ht].
  cbn [Mail.basename_go]. rewrite decide_False.
  - rewrite IH by exact Ht. rewrite <- str_app_assoc. reflexivity.
  - intros E. rewrite E in Hch. discriminate Hch.
Qed.

Lemma basename_go_after_slash (s t acc : string) :
  Mail.basename_go (s ++ String "/" t) acc = Mail.basename_go t "".
Proof.
  revert acc. induction s as [| ch s IH]; intros acc.
  - reflexivity.
  - change (String ch s ++ String "/" t) with (String ch (s ++ String "/" t)).
    cbn [Mail.basename_go]. destruct (decide (ch = "/"%char)); apply IH.
Qed.

Lemma ends_with_slash_split (a : string) :
  ends_with_slash a = true -> exists a', a = a' ++ "/".
Proof.
  induction a as [| ch a IH]; intros H; [discriminate H |].
  destruct a as [| ch' a'].
  - apply bool_decide_eq_true_1 in H. subst ch. exists "". reflexivity.
  - destruct (IH H) as [a'' E]. exists (String ch a''). rewrite E. reflexivity.
Qed.

Lemma basename_join (a b : string) :
  no_char "/" b = true -> Mail.basename (path_join a b) = b.
Proof.
  intros Hb. unfold path_join.
  destruct (String.prefix "/" b) eqn:Ep.
  { destruct b as [| ch b]; [discriminate Ep |]. cbn [String.prefix] in Ep.
    destruct (ascii_dec "/" ch) as [<- | Hne];
      [vm_compute in Hb; discriminate Hb | cbv beta iota in Ep; discriminate Ep]. }
  unfold Mail.basename.
  destruct (String.eqb a "") eqn:Ea; cbn [orb].
  - apply String.eqb_eq in Ea. subst a. apply basename_go_plain, Hb.
  - destruct (ends_with_slash a) eqn:Es.
    + destruct (ends_with_slash_split a Es) as [a' ->]. rewrite <- str_app_assoc.
      change ("/" ++ b) with (String "/" b). rewrite basename_go_after_slash.
      apply basename_go_plain, Hb.
    + change ("/" ++ b) with (String "/" b). rewrite basename_go_after_slash.
      apply basename_go_plain, Hb.
Qed.

(** The report file of an entity is named after the entity with each
    ["@"] turned into ["-"] and the date spec with each [" -> "] turned into
    ["-"], whatever the output directory, when neither contains a ["/"]; that
    name has no ["@"] left of the entity id. *)
Theorem report_file_name (out_dir entity_id date_spec : string) :
  no_char "/" entity_id = true -> no_char "/" date_spec = true ->
  Mail.basename (report_path out_dir entity_id date_spec) =
    Mail.str_replace "@" "-" entity_id ++ "-" ++ Mail.str_replace " -> " "-" date_spec ++ ".xlsx" /\
  no_char "@" (Mail.str_replace "@" "-" entity_id) = true.
Proof.
  intros He Hd. split.
  - apply basename_join. rewrite !no_char_app.
    unfold Mail.str_replace. rewrite !no_char_replace by assumption || reflexivity. reflexivity.
  - apply replace_removes_char. reflexivity.
Qed.

Lemma report_file_name_witness :
  Mail.basename (report_path "./output/" "fiu@aa" "01_03_2024 -> 05_03_2024") =
    "fiu-aa-01_03_2024-05_03_2024.xlsx" /\
  no_char "@" (Mail.str_replace "@" "-" "fiu@aa") = true.
Proof. exact (report_file_name "./output/" "fiu@aa" "01_03_2024 -> 05_03_2024" eq_refl eq_refl). Defined.

(* ------------------------------------------------------------------ *)
(** ** [load_config] *)

(** The whitespace [int()] strips around a numeral. *)
Definition py_space (ch : ascii) : bool :=
  bool_decide (ch ∈ ["009"; "010"; "011"; "012"; "013"; " "]%char).

Fixpoint all_space (s : string) : bool :=
  match s with
  | EmptyString => true
  | String ch rest => py_space ch && all_space rest
  end.

Fixpoint lstrip (s : string) : string :=
  match s with
  | EmptyString => EmptyString
  | String ch rest => if py_space ch then lstrip rest else s
  end.

Definition digit_value (ch : ascii) : option Z :=
  let n := Z.of_nat (nat_of_ascii ch) in
  if ((48 <=? n) && (n <=? 57))%Z then Some (n - 48) else None.

(** The digits of a base-10 numeral, a single ["_"] allowed between two
    digits, then nothing but whitespace. *)
Fixpoint digits_go (s : string) (acc : Z) (prev_us : bool) : option Z :=
  match s with
  | EmptyString => if prev_us then None else Some acc
  | String ch rest =>
      if bool_decide (ch = "_"%char) then
        if prev_us then None else digits_go rest acc true
      else
        match digit_value ch with
        | Some d => digits_go rest (acc * 10 + d) false
        | None => if prev_us then None else if all_space s then Some acc else None
        end
  end.

Definition parse_body (s : string) : option Z :=
  match s with
  | EmptyString => None
  | String ch _ => match digit_value ch with Some _ => digits_go s 0 false | None => None end
  end.

(** [int(s)] for a [str] of ASCII characters; [None] is the [ValueError]. *)
Definition py_int_of_string (s : string) : option Z :=
  match lstrip s with
  | String "-" rest => option_map Z.opp (parse_body rest)
  | String "+" rest => parse_body rest
  | s1 => parse_body s1
  end.

(** [os.environ.get(key, default)]; the environment is the one after
    [load_dotenv()]. *)
Definition env_get (env : string -> option string) (key default : string) : string :=
  match env key with Some v => v | None => default end.

Record config := {
  drill_host : string;
  drill_port : Z;
  drill_base_path : string;
  output_dir : string;
  smtp : Mail.smtp_config }.

(** [load_config()]; [None] when an [int()] raises. *)
Definition load_config (env : string -> option string) : option config :=
  dport ← py_int_of_string (env_get env "DRILL_PORT" "8047");
  sport ← py_int_of_string (env_get env "SMTP_PORT" "587");
  Some {| drill_host := env_get env "DRILL_HOST" "localhost";
          drill_port := dport;
          drill_base_path := env_get env "DRILL_DATA_BASE" "/data/user-funnel";
          output_dir := env_get env "OUTPUT_DIR" "./output";
          smtp := {| Mail.smtp_from := env_get env "SMTP_FROM" "";
                     Mail.smtp_host := env_get env "SMTP_HOST" "smtp.example.com";
                     Mail.smtp_port := sport;
                     Mail.smtp_user := env_get env "SMTP_USER" "";
                     Mail.smtp_password := env_get env "SMTP_PASSWORD" "" |} |}.

(** The numeral of a list of digits, most significant first. *)
Fixpoint numeral (ds : list nat) : string :=
  match ds with
  | [] => EmptyString
  | d :: ds' => String (ascii_of_nat (48 + d)) (numeral ds')
  end.

Definition horner (ds : list nat) : Z := fold_left (fun acc d => acc * 10 + Z.of_nat d) ds 0.



Lemma digit_numeral (d : nat) :
  (d < 10)%nat -> digit_value (ascii_of_nat (48 + d)) = Some (Z.of_nat d) /\
                  bool_decide (ascii_of_nat (48 + d) = "_"%char) = false.
Proof.
  intros Hd. do 10 (destruct d as [| d]; [split; reflexivity |]). lia.
Qed.

Lemma space_not_digit (ch : ascii) :
  py_space ch = true -> digit_value ch = None /\ bool_decide (ch = "_"%char) = false.
Proof.
  unfold py_space. intros H. apply bool_decide_eq_true_1 in H.
  repeat (apply elem_of_cons in H as [-> | H]; [split; reflexivity |]).
  apply elem_of_nil in H. contradiction.
Qed.

Lemma digits_numeral (ds : list nat) (ws : string) (acc : Z) :
  all_space ws = true -> Forall (fun d => (d < 10)%nat) ds ->
  digits_go (numeral ds ++ ws) acc false = Some (fold_left (fun acc d => acc * 10 + Z.of_nat d) ds acc).
Proof.
  intros Hws. revert acc. induction ds as [| d ds IH]; intros acc Hds.
  - destruct ws as [| ch ws]; [reflexivity |].
    cbn in Hws. apply andb_true_iff in Hws as [Hch Hws'].
    destruct (space_not_digit ch Hch) as [Hv Hu].
    change (numeral [] ++ String ch ws) with (String ch ws). cbn [digits_go].
    rewrite Hu, Hv. cbn [all_space]. rewrite Hch, Hws'. reflexivity.
  - apply Forall_cons in Hds as [Hd Hds].
    destruct (digit_numeral d Hd) as [Hv Hu].
    change (numeral (d :: ds) ++ ws) with (String (ascii_of_nat (48 + d)) (numeral ds ++ ws)).
    cbn [digits_go]. rewrite Hu, Hv. apply IH, Hds.
Qed.

Lemma lstrip_spaces (ws s : string) :
  all_space ws = true -> lstrip (ws ++ s) = lstrip s.
Proof.
  induction ws as [| ch ws IH]; intros H; [reflexivity |].
  cbn in H. apply andb_true_iff in H as [Hch H].
  change (String ch ws ++ s) with (String ch (ws ++ s)). cbn [lstrip]. rewrite Hch. apply IH, H.
Qed.

Lemma lstrip_numeral (ds : list nat) (ws : string) :
  ds <> [] -> Forall (fun d => (d < 10)%nat) ds -> lstrip (numeral ds ++ ws) = numeral ds ++ ws.
Proof.
  destruct ds as [| d ds]; intros Hne Hds; [contradiction |].
  apply Forall_cons in Hds as [Hd _].
  change (numeral (d :: ds) ++ ws) with (String (ascii_of_nat (48 + d)) (numeral ds ++ ws)).
  cbn [lstrip]. do 10 (destruct d as [| d]; [reflexivity |]). lia.
Qed.

Lemma parse_body_numeral (ds : list nat) (ws : string) :
  all_space ws = true -> ds <> [] -> Forall (fun d => (d < 10)%nat) ds ->
  parse_body (numeral ds ++ ws) = Some (horner ds).
Proof.
  intros Hws Hne Hds. destruct ds as [| d ds']; [contradiction |].
  pose proof (digits_numeral (d :: ds') ws 0 Hws Hds) as Hg.
  apply Forall_cons in Hds as [Hd _]. destruct (digit_numeral d Hd) as [Hv _].
  change (numeral (d :: ds') ++ ws) with (String (ascii_of_nat (48 + d)) (numeral ds' ++ ws)) in *.
  cbn [parse_body]. rewrite Hv. exact Hg.
Qed.

(** [int()] reads back a base-10 numeral with or without a sign, with any
    whitespace around it: a port set to [" 8047\n"] is 8047. *)
Theorem int_parses_numeral (ws1 ws2 : string) (ds : list nat) :
  all_space ws1 = true -> all_space ws2 = true -> ds <> [] -> Forall (fun d => (d < 10)%nat) ds ->
  py_int_of_string (ws1 ++ numeral ds ++ ws2) = Some (horner ds) /\
  py_int_of_string (ws1 ++ "+" ++ numeral ds ++ ws2) = Some (horner ds) /\
  py_int_of_string (ws1 ++ "-" ++ numeral ds ++ ws2) = Some (- horner ds).
Proof.
  intros H1 H2 Hne Hds. unfold py_int_of_string.
  rewrite (lstrip_spaces ws1 (numeral ds ++ ws2) H1), (lstrip_spaces ws1 ("+" ++ numeral ds ++ ws2) H1),
    (lstrip_spaces ws1 ("-" ++ numeral ds ++ ws2) H1).
  rewrite lstrip_numeral by assumption.
  change (lstrip ("+" ++ numeral ds ++ ws2)) with ("+" ++ numeral ds ++ ws2).
  change (lstrip ("-" ++ numeral ds ++ ws2)) with ("-" ++ numeral ds ++ ws2).
  destruct ds as [| d ds']; [contradiction |].
  pose proof (parse_body_numeral (d :: ds') ws2 H2 Hne Hds) as Hp.
  pose proof Hds as Hds'. apply Forall_cons in Hds' as [Hd _].
  change (numeral (d :: ds') ++ ws2) with (String (ascii_of_nat (48 + d)) (numeral ds' ++ ws2)) in *.
  change ("+" ++ String (ascii_of_nat (48 + d)) (numeral ds' ++ ws2))
    with (String "+" (String (ascii_of_nat (48 + d)) (numeral ds' ++ ws2))).
  change ("-" ++ String (ascii_of_nat (48 + d)) (numeral ds' ++ ws2))
    with (String "-" (String (ascii_of_nat (48 + d)) (numeral ds' ++ ws2))).
  split; [| split; [exact Hp | exact (f_equal (option_map Z.opp) Hp)]].
  do 10 (destruct d as [| d]; [exact Hp |]). lia.
Qed.

Lemma int_parses_numeral_witness :
  py_int_of_string (" " ++ numeral [8; 0; 4; 7]%nat ++ String "010" "") = Some 8047 /\
  py_int_of_string (" " ++ "+" ++ numeral [8; 0; 4; 7]%nat ++ String "010" "") = Some 8047 /\
  py_int_of_string (" " ++ "-" ++ numeral [8; 0; 4; 7]%nat ++ String "010" "") = Some (- 8047).
Proof.
  refine (int_parses_numeral " " (String "010" "") [8; 0; 4; 7]%nat eq_refl eq_refl _ _);
    [discriminate | repeat constructor; lia].
Defined.










(* ------------------------------------------------------------------ *)
(** ** [load_recipients] and the loop of [run] *)

(** The ["to"] and ["cc"] objects of recipients.json, [None] when the key
    is absent; the ["to"] entries keep the file's order. *)
Record recipients_json := {
  json_to : option (list (string * list string));
  json_cc : option (gmap string (list string)) }.

(** [load_recipients()]: [to_map], [cc_map] and [default_cc]. *)
Definition load_recipients (data : recipients_json)
    : list (string * list string) * gmap string (list string) * list string :=
  let to_map := default [] (json_to data) in
  let cc_map := default ∅ (json_cc data) in
  let default_cc := default ["cc@your-company.com"] (cc_map !! "default") in
  (to_map, cc_map, default_cc).

(** What the loop body of [run] does for one entity: skipped on an empty
    stage frame, failed when the [try] block raises, or the report written
    to [out_path], with what [send_report_mail] returned. *)
Inductive outcome :=
| Skipped
| Failed
| Written (out_path : string) (mailed : bool).

(** [stages.empty]: the frame has no column or no row. *)
Definition frame_empty (df : gmap string (list Q)) : bool :=
  bool_decide (df = ∅) || existsb (fun kc => bool_decide (kc.2 = [])) (map_to_list df).


Section Run.

(** The Drill fetches ([None]: the call raised), the workbook save of
    [write_funnel_excel] ([false]: [ExcelWriter] raised) and the mail
    transport of [send_report_mail]. *)
Variable fetch_stage_metrics : string -> string -> string -> string -> Z -> option (gmap string (list Q)).
Variable fetch_otp_totals : string -> string -> string -> string -> Z -> option (list otp_row).
Variable fetch_discovery_totals : string -> string -> string -> string -> Z -> option (list disc_row).
Variable fetch_fi_status_counts : string -> string -> string -> string -> Z -> option (list fi_row).
Variable save_workbook : string -> list Sheet.sheet_op -> bool.
Variable isfile : string -> bool.
Variable read_file : string -> option string.
Variable smtp_send : Mail.smtp_config -> Mail.message -> bool.

(** Lines 212-243 for one [(entity_id, to_list)] of [to_map]. *)
Definition run_entity (cfg : config) (cc_map : gmap string (list string)) (default_cc : list string)
    (date_spec entity_id : string) (to_list : list string) : outcome :=
  let out_path := report_path (output_dir cfg) entity_id date_spec in
  let base := drill_base_path cfg in
  let host := drill_host cfg in
  let port := drill_port cfg in
  match fetch_stage_metrics base entity_id date_spec host port with
  | None => Failed
  | Some stages =>
      if frame_empty stages then Skipped else
      match fetch_otp_totals base entity_id date_spec host port,
            fetch_discovery_totals base entity_id date_spec host port,
            fetch_fi_status_counts base entity_id date_spec host port with
      | Some otp, Some discovery, Some fi_status =>
          match aggregate_stages stages with
          | None => Failed
          | Some totals =>
              match build_report_table totals otp discovery fi_status with
              | None => Failed
              | Some table =>
                  match Sheet.write_funnel_excel table with
                  | None => Failed
                  | Some ops =>
                      if save_workbook out_path ops then
                        let subj := entity_id ++ "_user_funnel_" ++ date_spec in
                        let body := Mail.run_body entity_id date_spec in
                        let cc_list := default default_cc (cc_map !! entity_id) in
                        Written out_path
                          (Mail.send_report_mail isfile read_file smtp_send to_list subj body
                             [out_path] cc_list (Some (smtp cfg)))
                      else Failed
                  end
              end
          end
      | _, _, _ => Failed
      end
  end.

(** [run(demo=False, date_spec)] with [date_spec] given: [None] when
    [load_config] raises, otherwise the outcome of each entity of [to_map],
    in order ([os.makedirs] is taken to succeed). *)
Definition run (env : string -> option string) (data : recipients_json) (date_spec : string)
    : option (list (string * outcome)) :=
  cfg ← load_config env;
  let '(to_map, cc_map, default_cc) := load_recipients data in
  Some (map (fun '(entity_id, to_list) =>
               (entity_id, run_entity cfg cc_map default_cc date_spec entity_id to_list)) to_map).

Lemma run_entity_written_facts (cfg : config) cc_map default_cc date_spec entity_id to_list p m :
  run_entity cfg cc_map default_cc date_spec entity_id to_list = Written p m ->
  p = report_path (output_dir cfg) entity_id date_spec /\
  (exists stages, fetch_stage_metrics (drill_base_path cfg) entity_id date_spec (drill_host cfg)
                    (drill_port cfg) = Some stages /\
     frame_empty stages = false /\ Forall (fun k => is_Some (stages !! k)) STAGE_COLUMNS) /\
  m = Mail.send_report_mail isfile read_file smtp_send to_list (entity_id ++ "_user_funnel_" ++ date_spec)
        (Mail.run_body entity_id date_spec) [p] (default default_cc (cc_map !! entity_id)) (Some (smtp cfg)).
Proof.
  unfold run_entity. intros H.
  destruct (fetch_stage_metrics _ _ _ _ _) as [stages |] eqn:Es; [| discriminate H].
  destruct (frame_empty stages) eqn:Ee; [discriminate H |].
  destruct (fetch_otp_totals _ _ _ _ _) as [otp |]; [| discriminate H].
  destruct (fetch_discovery_totals _ _ _ _ _) as [disc |]; [| discriminate H].
  destruct (fetch_fi_status_counts _ _ _ _ _) as [fi |]; [| discriminate H].
  destruct (aggregate_stages stages) as [totals |] eqn:Ea; [| discriminate H].
  destruct (build_report_table totals otp disc fi) as [t |]; [| discriminate H].
  destruct (Sheet.write_funnel_excel t) as [ops |]; [| discriminate H].
  destruct (save_workbook _ ops); [| discriminate H].
  injection H as <- <-. split; [reflexivity |]. split; [| reflexivity].
  exists stages. split; [reflexivity |]. split; [exact Ee |].
  exact (Table.aggregate_columns_present _ _ _ Ea).
Qed.

(** An entity is skipped exactly when its stage frame is fetched and
    empty; a fetch that raises makes it fail, not skip. *)
Theorem run_entity_skipped_iff (cfg : config) cc_map default_cc date_spec entity_id to_list :
  run_entity cfg cc_map default_cc date_spec entity_id to_list = Skipped <->
  exists stages, fetch_stage_metrics (drill_base_path cfg) entity_id date_spec (drill_host cfg)
                   (drill_port cfg) = Some stages /\ frame_empty stages = true.
Proof.
  unfold run_entity. split.
  - intros H. destruct (fetch_stage_metrics _ _ _ _ _) as [stages |]; [| discriminate H].
    exists stages. split; [reflexivity |].
    destruct (frame_empty stages); [reflexivity | exfalso].
    repeat case_match; discriminate H.
  - intros [stages [-> He]]. rewrite He. reflexivity.
Qed.

(** A written report comes from a non-empty stage frame with all eleven
    stage columns (a missing one raises [KeyError], caught as a failure),
    lies at [report_path], and the mail for it goes to the entity's To list
    with the entity's CC list ([default_cc] when it has none) and the
    report as the one attachment. *)
Theorem run_entity_written_inv (cfg : config) cc_map default_cc date_spec entity_id to_list p m :
  run_entity cfg cc_map default_cc date_spec entity_id to_list = Written p m ->
  p = report_path (output_dir cfg) entity_id date_spec /\
  (exists stages, fetch_stage_metrics (drill_base_path cfg) entity_id date_spec (drill_host cfg)
                    (drill_port cfg) = Some stages /\
     frame_empty stages = false /\ Forall (fun k => is_Some (stages !! k)) STAGE_COLUMNS) /\
  m = Mail.send_report_mail isfile read_file smtp_send to_list (entity_id ++ "_user_funnel_" ++ date_spec)
        (Mail.run_body entity_id date_spec) [p] (default default_cc (cc_map !! entity_id)) (Some (smtp cfg)).
Proof. apply run_entity_written_facts. Qed.


Lemma load_config_smtp (env : string -> option string) (cfg : config) :
  load_config env = Some cfg ->
  Mail.smtp_user (smtp cfg) = env_get env "SMTP_USER" "" /\
  Mail.smtp_password (smtp cfg) = env_get env "SMTP_PASSWORD" "".
Proof.
  unfold load_config. intros H.
  destruct (py_int_of_string (env_get env "DRILL_PORT" "8047")); [| discriminate H].
  destruct (py_int_of_string (env_get env "SMTP_PORT" "587")); [| discriminate H].
  injection H as <-. split; reflexivity.
Qed.

(** Without [SMTP_USER] or [SMTP_PASSWORD] in the environment (or with one
    of them empty), [run] writes reports but sends no mail. *)
Theorem run_never_mails_without_credentials (env : string -> option string) (data : recipients_json)
    (date_spec : string) (outs : list (string * outcome)) :
  run env data date_spec = Some outs ->
  env "SMTP_USER" = None \/ env "SMTP_USER" = Some "" \/
  env "SMTP_PASSWORD" = None \/ env "SMTP_PASSWORD" = Some "" ->
  forall entity_id p m, In (entity_id, Written p m) outs -> m = false.
Proof.
  intros Hrun Hcred e p m Hin. unfold run in Hrun.
  destruct (load_config env) as [cfg |] eqn:Ec; [| discriminate Hrun].
  destruct (load_recipients data) as [[to_map cc_map] dcc].
  injection Hrun as <-. apply in_map_iff in Hin as [[e' to] [Heq _]].
  injection Heq as -> Hw.
  destruct (run_entity_written_facts _ _ _ _ _ _ _ _ Hw) as [_ [_ ->]].
  apply Mail.send_without_credentials.
  destruct (load_config_smtp env cfg Ec) as [Hu Hp]. cbn [Mail.has_credentials]. rewrite Hu, Hp.
  unfold env_get. destruct Hcred as [H | [H | [H | H]]]; rewrite H; cbn; [reflexivity | reflexivity | |];
    rewrite orb_true_r; reflexivity.
Qed.

End Run.

(** A sample installation: Drill serving the demo frames, saves and mail
    transport that succeed, the default configuration and one entity. *)
Definition sample_stage_fetch : string -> string -> string -> string -> Z -> option (gmap string (list Q)) :=
  fun _ _ _ _ _ => Some mock_stage_df.
Definition sample_otp_fetch : string -> string -> string -> string -> Z -> option (list otp_row) :=
  fun _ _ _ _ _ => Some mock_otp_df.
Definition sample_disc_fetch : string -> string -> string -> string -> Z -> option (list disc_row) :=
  fun _ _ _ _ _ => Some mock_discovery_df.
Definition sample_fi_fetch : string -> string -> string -> string -> Z -> option (list fi_row) :=
  fun _ _ _ _ _ => Some mock_fi_status_df.
Definition sample_save : string -> list Sheet.sheet_op -> bool := fun _ _ => true.
Definition sample_isfile : string -> bool := fun _ => true.
Definition sample_read : string -> option string := fun _ => Some "".
Definition sample_smtp : Mail.smtp_config -> Mail.message -> bool := fun _ _ => true.
Definition sample_env : string -> option string := fun _ => None.
Definition sample_recipients : recipients_json :=
  {| json_to := Some [("fiu@aa", ["ops@fiu.example"])]; json_cc := None |}.
Definition sample_config : config :=
  {| drill_host := "localhost"; drill_port := 8047; drill_base_path := "/data/user-funnel";
     output_dir := "./output";
     smtp := {| Mail.smtp_from := ""; Mail.smtp_host := "smtp.example.com"; Mail.smtp_port := 587;
                Mail.smtp_user := "u"; Mail.smtp_password := "pw" |} |}.

Lemma run_entity_written_inv_witness :
  "./output/fiu-aa-01_03_2024.xlsx" = report_path "./output" "fiu@aa" "01_03_2024".
Proof.
  refine (proj1 (run_entity_written_inv sample_stage_fetch sample_otp_fetch sample_disc_fetch
    sample_fi_fetch sample_save sample_isfile sample_read sample_smtp sample_config ∅ [] "01_03_2024"
    "fiu@aa" ["ops@fiu.example"] "./output/fiu-aa-01_03_2024.xlsx" true _)).
  vm_compute. reflexivity.
Defined.


Lemma run_never_mails_without_credentials_witness :
  exists outs, run sample_stage_fetch sample_otp_fetch sample_disc_fetch sample_fi_fetch sample_save
      sample_isfile sample_read sample_smtp sample_env sample_recipients "01_03_2024" = Some outs /\
    forall entity_id p m, In (entity_id, Written p m) outs -> m = false.
Proof.
  eexists. split; [vm_compute; reflexivity |].
  exact (run_never_mails_without_credentials sample_stage_fetch sample_otp_fetch sample_disc_fetch
    sample_fi_fetch sample_save sample_isfile sample_read sample_smtp sample_env sample_recipients
    "01_03_2024" _ ltac:(vm_compute; reflexivity) (or_introl eq_refl)).
Defined.

End Pipeline.
